(** * slash.parallel.worker: the worker side of the parallel test-dispatch protocol

    A shallow embedding of [slash/parallel/worker.py].  The worker talks to
    the master through XML-RPC calls, runs one test at a time and reports
    its result.  Everything the worker does that another party can observe
    (an RPC call, a log record, a sleep, starting or joining the heartbeat
    thread, running a test) is recorded as an [event] of a trace; what the
    outside answers (the master's replies, the outcome of a test run) is
    read from a script. *)

From Stdlib Require Import ZArith List String Ascii Bool Lia DecimalString.
Import ListNotations.
Open Scope string_scope.
Open Scope list_scope.

(** ** Python values and exceptions *)

(** Values that travel on the RPC channel and are compared with [==]. *)
Inductive pyval : Type :=
| PyInt (z : Z)
| PyStr (s : string)
| PyNone.

(** Python's [==] on these values: values of different types are unequal. *)
Definition py_eqb (a b : pyval) : bool :=
  match a, b with
  | PyInt x, PyInt y => Z.eqb x y
  | PyStr x, PyStr y => String.eqb x y
  | PyNone, PyNone => true
  | _, _ => false
  end.

(** The exception classes the worker can meet. *)
Inductive exn : Type :=
| KeyboardInterrupt
| TerminatedException
| IndexError
| TypeError
| AttributeError
| PicklingError
| ConnectionError.

Definition exn_eqb (a b : exn) : bool :=
  match a, b with
  | KeyboardInterrupt, KeyboardInterrupt
  | TerminatedException, TerminatedException
  | IndexError, IndexError
  | TypeError, TypeError
  | AttributeError, AttributeError
  | PicklingError, PicklingError
  | ConnectionError, ConnectionError => true
  | _, _ => false
  end.

(** [isinstance(e, classes)] for a tuple of exception classes. *)
Definition isinstance (e : exn) (classes : list exn) : bool :=
  existsb (exn_eqb e) classes.

(** [l[i]] on a Python list: a negative integer counts from the end, an
    integer out of range raises [IndexError], a value that is not an integer
    raises [TypeError]. *)
Definition py_getitem {A : Type} (l : list A) (i : pyval) : exn + A :=
  match i with
  | PyInt z =>
      let n := Z.of_nat (List.length l) in
      let k := if (z <? 0)%Z then (z + n)%Z else z in
      if ((k <? 0)%Z || (n <=? k)%Z)%bool then inl IndexError
      else match nth_error l (Z.to_nat k) with
           | Some x => inr x
           | None => inl IndexError
           end
  | _ => inl TypeError
  end.

Definition str_of_Z (z : Z) : string := NilZero.string_of_int (Z.to_int z).

(** ** Tests, results, warnings *)

(** What the worker reads of a collected test: [test.__slash__.file_path],
    [test.__slash__.function_name] and [test.__slash__.variation.id]. *)
Record test : Type := {
  file_path : string;
  function_name : string;
  variation_id : string
}.

Inductive status : Type := Success | Failure | Error | Skip.

(** [context.session.results[test]] after [run_tests([test])]. *)
Record result : Type := {
  result_test : test;
  result_status : status
}.

(** The blob [result.serialize()] hands to the transport; its layout is
    not interpreted by the worker, so the result itself stands for it. *)
Definition serialize (r : result) : result := r.

Record warning_record : Type := {
  message : string;
  filename : string;
  lineno : Z
}.

(** What the local name [warning] of [warning_added] can be bound to: the
    warning it was called with, or the bytes [pickle.dumps] returned. *)
Inductive pyobj : Type :=
| WarningObj (w : warning_record)
| BytesObj (b : string).

(** Attribute access; [bytes] has none of the three attributes. *)
Definition getattr_message (o : pyobj) : exn + string :=
  match o with WarningObj w => inr (message w) | BytesObj _ => inl AttributeError end.
Definition getattr_filename (o : pyobj) : exn + string :=
  match o with WarningObj w => inr (filename w) | BytesObj _ => inl AttributeError end.
Definition getattr_lineno (o : pyobj) : exn + Z :=
  match o with WarningObj w => inr (lineno w) | BytesObj _ => inl AttributeError end.

(** ** Events *)

Inductive rpc_call : Type :=
| connect (cid : string)
| validate_collection (cid : string) (collection : list (string * string * string))
| get_test (cid : string)
| finished_test (cid : string) (serialized : result)
| disconnect (cid : string)
| report_warning (cid : string) (pickled : string).

Inductive event : Type :=
| Rpc (c : rpc_call)
| LogError (msg : string)
| LogDebug (msg : string)
| Setsid                               (* os.setsid() *)
| RegisterHook                         (* register(self.warning_added) *)
| ThreadStart                          (* tr.start() on the keep_alive thread *)
| EnterStartedContext                  (* with app.session.get_started_context(): *)
| ExitStartedContext
| Sleep (milliseconds : Z)
| SetCurrentParallelTestIndex (i : pyval)
| RunTests (t : test)
| MarkComplete                         (* context.session.mark_complete() *)
| FlushRemainingScopes
| StopEventSet
| ThreadJoin.

(** ** The machine the worker runs on *)

Inductive reply : Type :=
| Returns (v : pyval)
| Raises (e : exn).

(** The trace so far, and what the outside will answer next: the master's
    acknowledgements of [finished_test], and what each coming call of
    [run_tests] does (raise, or leave a result with that status). *)
Record machine : Type := {
  trace : list event;
  finished_test_replies : list reply;
  run_tests_outcomes : list (exn + status)
}.

(** How a piece of code ends: normally with a value, with an exception, or
    never ([Hang]: it waits for an answer the script does not hold). *)
Inductive res (A : Type) : Type :=
| Ok (a : A)
| Exc (e : exn)
| Hang.
Arguments Ok {A} a.
Arguments Exc {A} e.
Arguments Hang {A}.

Definition M (A : Type) : Type := machine -> res A * machine.

Definition ret {A : Type} (a : A) : M A := fun m => (Ok a, m).

Definition bind {A B : Type} (c : M A) (k : A -> M B) : M B :=
  fun m =>
    match c m with
    | (Ok a, m') => k a m'
    | (Exc e, m') => (Exc e, m')
    | (Hang, m') => (Hang, m')
    end.

Definition raise {A : Type} (e : exn) : M A := fun m => (Exc e, m).
Definition hang {A : Type} : M A := fun m => (Hang, m).

Declare Scope worker_scope.
Delimit Scope worker_scope with worker.
Notation "x <- c ;; k" := (bind c (fun x => k))
  (at level 61, c at next level, right associativity) : worker_scope.
Notation "c ;; k" := (bind c (fun _ => k))
  (at level 61, right associativity) : worker_scope.
Open Scope worker_scope.

Definition record_event (e : event) (m : machine) : machine :=
  {| trace := trace m ++ [e];
     finished_test_replies := finished_test_replies m;
     run_tests_outcomes := run_tests_outcomes m |}.

Definition emit (e : event) : M unit := fun m => (Ok tt, record_event e m).

Definition of_sum {A : Type} (x : exn + A) : M A :=
  match x with inl e => raise e | inr a => ret a end.

(** The value of a call whose answer is [r]. *)
Definition answer (r : reply) : M pyval :=
  match r with Returns v => ret v | Raises e => raise e end.

(** [try: body / except classes: handler / else: orelse / finally: final].
    The handler gets the exception, [orelse] runs when the body ended
    without one, and [final] runs on every way out; code that never ends
    has no way out. *)
Definition finally {A : Type} (c : M A) (final : M unit) : M A :=
  fun m =>
    match c m with
    | (Hang, m') => (Hang, m')
    | (r, m') =>
        match final m' with
        | (Ok _, m'') => (r, m'')
        | (Exc e, m'') => (Exc e, m'')
        | (Hang, m'') => (Hang, m'')
        end
    end.

Definition try_except_else {A : Type} (body : M A) (classes : list exn)
    (handler : exn -> M unit) (orelse : M unit) : M unit :=
  fun m =>
    match body m with
    | (Ok _, m') => orelse m'
    | (Exc e, m') => if isinstance e classes then handler e m' else (Exc e, m')
    | (Hang, m') => (Hang, m')
    end.

(** [with cm: body], for a context manager that does not suppress
    exceptions: its exit runs on every way out of the body. *)
Definition with_context {A : Type} (enter leave : event) (body : M A) : M A :=
  emit enter ;; finally body (emit leave).

(** ** The worker *)

Record Worker : Type := {
  client_id : string;
  session_id : string;
  collected_tests : list test;
  server_addr : string
}.

(** [Worker.__init__], with the two configuration values it reads. *)
Definition Worker_init (client_id session_id : string) (collected_tests : list test)
    (config_server_addr config_server_port : string) : Worker :=
  {| client_id := client_id;
     session_id := session_id;
     collected_tests := collected_tests;
     server_addr := "http://" ++ config_server_addr ++ ":" ++ config_server_port |}.

(** What the outside of one call of [start] answers. *)
Record world : Type := {
  is_process_group_leader : bool;       (* os.getpid() == os.getpgid(0) *)
  validate_collection_reply : bool;
  get_test_replies : list reply;
  world_finished_test_replies : list reply;
  world_run_tests_outcomes : list (exn + status)
}.

Definition boot (w : world) : machine :=
  {| trace := [];
     finished_test_replies := world_finished_test_replies w;
     run_tests_outcomes := world_run_tests_outcomes w |}.

(** The log records of the module. *)
Definition collection_mismatch_msg (cid : string) : string :=
  "Collections of worker id " ++ cid ++ " and master don't match, worker terminates".
Definition waiting_msg (cid : string) : string :=
  "Worker_id " ++ cid ++ " recieved waiting_for_clients, sleeping".
Definition protocol_error_msg (cid : string) : string :=
  "Worker_id " ++ cid ++ " recieved protocol error message, terminating".
Definition finished_all_tests_msg (cid : string) : string :=
  "Got FINISHED_ALL_TESTS, Client " ++ cid ++ " disconnecting".
Definition should_terminate_msg (cid : string) : string :=
  "Got SHOULD_TERMINATE, Client " ++ cid ++ " disconnecting".
Definition sending_results_msg (cid : string) : string :=
  "Client " ++ cid ++ " finished test, sending results".
Definition interrupted_msg : string := "Worker interrupted while executing test".
Definition pickle_failed_msg (message filename : string) (lineno : Z) : string :=
  "Failed to pickle warning. Message: " ++ message ++ ", File: " ++ filename
    ++ ", Line: " ++ str_of_Z lineno.

(** [time.sleep(0.05)], in milliseconds. *)
Definition waiting_delay : Z := 50.

Section Protocol.

(** The four control codes of [slash/parallel/server.py] and the tuple
    [INTERRUPTION_EXCEPTIONS] of [slash/exceptions.py] are imported by the
    worker; neither module is part of the sources at hand, so the worker
    is embedded over their values. *)
Variables WAITING_FOR_CLIENTS PROTOCOL_ERROR FINISHED_ALL_TESTS SHOULD_TERMINATE : pyval.
Variable INTERRUPTION_EXCEPTIONS : list exn.

(** [run_tests([test])] followed by [context.session.results[test]]. *)
Definition run_tests (t : test) : M result :=
  emit (RunTests t) ;;
  fun m =>
    match run_tests_outcomes m with
    | [] => (Hang, m)
    | o :: rest =>
        let m' := {| trace := trace m;
                     finished_test_replies := finished_test_replies m;
                     run_tests_outcomes := rest |} in
        match o with
        | inl e => (Exc e, m')
        | inr s => (Ok {| result_test := t; result_status := s |}, m')
        end
    end.

(** [self.client.finished_test(self.client_id, blob)]. *)
Definition call_finished_test (cid : string) (blob : result) : M pyval :=
  emit (Rpc (finished_test cid blob)) ;;
  fun m =>
    match finished_test_replies m with
    | [] => (Hang, m)
    | r :: rest =>
        answer r {| trace := trace m;
                    finished_test_replies := rest;
                    run_tests_outcomes := run_tests_outcomes m |}
    end.

(** The [else] branch of the loop body: the reply is used as an index. It
    yields the new value of [should_stop]. *)
Definition dispatch (self : Worker) (test_index : pyval) : M bool :=
  t <- of_sum (py_getitem (collected_tests self) test_index) ;;
  emit (SetCurrentParallelTestIndex test_index) ;;
  result <- run_tests t ;;
  emit (LogDebug (sending_results_msg (client_id self))) ;;
  ret_ <- call_finished_test (client_id self) (serialize result) ;;
  if py_eqb ret_ PROTOCOL_ERROR then
    emit (LogError (protocol_error_msg (client_id self))) ;;
    ret true
  else ret false.

(** [while not should_stop: ...]: one reply of [get_test] is read per
    round; [break] is a branch that does not go round again. *)
Fixpoint run_loop (self : Worker) (replies : list reply) (should_stop : bool)
    {struct replies} : M unit :=
  if should_stop then ret tt
  else
    emit (Rpc (get_test (client_id self))) ;;
    match replies with
    | [] => hang
    | r :: replies' =>
        test_index <- answer r ;;
        if py_eqb test_index WAITING_FOR_CLIENTS then
          emit (LogDebug (waiting_msg (client_id self))) ;;
          emit (Sleep waiting_delay) ;;
          run_loop self replies' false
        else if py_eqb test_index PROTOCOL_ERROR then
          emit (LogError (protocol_error_msg (client_id self)))
        else if py_eqb test_index FINISHED_ALL_TESTS then
          emit (LogDebug (finished_all_tests_msg (client_id self)))
        else if py_eqb test_index SHOULD_TERMINATE then
          emit (LogDebug (should_terminate_msg (client_id self)))
        else
          should_stop' <- dispatch self test_index ;;
          run_loop self replies' should_stop'
    end.

(** The [finally] suite of [start]. *)
Definition teardown : M unit :=
  emit FlushRemainingScopes ;;
  emit StopEventSet ;;
  emit ThreadJoin.

(** The [try] statement of [start]. *)
Definition guarded_run (self : Worker) (replies : list reply) : M unit :=
  finally
    (try_except_else
       (run_loop self replies false)
       INTERRUPTION_EXCEPTIONS
       (fun e => emit (LogError interrupted_msg) ;; raise e)
       (emit MarkComplete ;;
        emit (Rpc (disconnect (client_id self)))))
    teardown.

Definition collection_of (self : Worker) : list (string * string * string) :=
  map (fun t => (file_path t, function_name t, variation_id t)) (collected_tests self).

Definition start (self : Worker) (w : world) : M unit :=
  (if negb (is_process_group_leader w) then emit Setsid else ret tt) ;;
  emit RegisterHook ;;
  let collection := collection_of self in
  emit (Rpc (connect (client_id self))) ;;
  emit (Rpc (validate_collection (client_id self) collection)) ;;
  if negb (validate_collection_reply w) then
    emit (LogError (collection_mismatch_msg (client_id self))) ;;
    emit (Rpc (disconnect (client_id self)))
  else
    emit ThreadStart ;;
    with_context EnterStartedContext ExitStartedContext
      (guarded_run self (get_test_replies w)).

(** One call of [start] from a fresh trace: how it ends and what it did. *)
Definition run_start (self : Worker) (w : world) : res unit * list event :=
  let '(r, m) := start self w (boot w) in (r, trace m).

End Protocol.

(** ** The warning hook *)

Section WarningHook.

(** [pickle.dumps] and the transport behind [report_warning] are outside
    the worker: what the first returns or raises for a warning, and
    whether the second raises for a blob, are given. *)
Variable pickle_dumps : warning_record -> exn + string.
Variable report_warning_raises : string -> option exn.

Definition call_report_warning (cid pickled : string) : M unit :=
  emit (Rpc (report_warning cid pickled)) ;;
  match report_warning_raises pickled with
  | Some e => raise e
  | None => ret tt
  end.

(** The [except] suite, run with what the name [warning] holds then. The
    arguments of [format] are evaluated from left to right. *)
Definition log_pickle_failure (warning : pyobj) : M unit :=
  msg <- of_sum (getattr_message warning) ;;
  file <- of_sum (getattr_filename warning) ;;
  line <- of_sum (getattr_lineno warning) ;;
  emit (LogError (pickle_failed_msg msg file line)).

(** [warning = pickle.dumps(warning)] rebinds the name only when
    [pickle.dumps] returns: an exception of [pickle.dumps] reaches the
    handler with the name still bound to the argument, an exception of
    [report_warning] with the name bound to the bytes. *)
Definition warning_added (self : Worker) (warning : warning_record) : M unit :=
  let classes := [PicklingError; TypeError] in
  match pickle_dumps warning with
  | inl e =>
      if isinstance e classes then log_pickle_failure (WarningObj warning)
      else raise e
  | inr pickled =>
      try_except_else
        (call_report_warning (client_id self) pickled)
        classes
        (fun _ => log_pickle_failure (BytesObj pickled))
        (ret tt)
  end.

End WarningHook.

(** ** Reading traces *)

(** The machine after a run of events. *)
Definition emits (es : list event) (m : machine) : machine :=
  {| trace := trace m ++ es;
     finished_test_replies := finished_test_replies m;
     run_tests_outcomes := run_tests_outcomes m |}.

Definition is_get_test (e : event) : bool :=
  match e with Rpc (get_test _) => true | _ => false end.
Definition is_disconnect (e : event) : bool :=
  match e with Rpc (disconnect _) => true | _ => false end.
Definition is_finished_test (e : event) : bool :=
  match e with Rpc (finished_test _ _) => true | _ => false end.
Definition is_run_tests (e : event) : bool :=
  match e with RunTests _ => true | _ => false end.
Definition is_mark_complete (e : event) : bool :=
  match e with MarkComplete => true | _ => false end.
Definition is_thread_start (e : event) : bool :=
  match e with ThreadStart => true | _ => false end.
Definition is_log_error (e : event) : bool :=
  match e with LogError _ => true | _ => false end.
Definition is_sleep (e : event) : bool :=
  match e with Sleep _ => true | _ => false end.

Definition count (p : event -> bool) (tr : list event) : nat :=
  List.length (filter p tr).

(** The results handed to [finished_test], in the order of the calls. *)
Fixpoint submitted (tr : list event) : list result :=
  match tr with
  | [] => []
  | Rpc (finished_test _ r) :: tr' => r :: submitted tr'
  | _ :: tr' => submitted tr'
  end.

(** The events of a dispatch up to the call of [finished_test]. *)
Definition dispatched (self : Worker) (test_index : pyval) (t : test) (s : status)
    : list event :=
  [SetCurrentParallelTestIndex test_index;
   RunTests t;
   LogDebug (sending_results_msg (client_id self));
   Rpc (finished_test (client_id self) {| result_test := t; result_status := s |})].

(** The events of one round that was told to wait, and of [n] such rounds. *)
Definition wait_round (cid : string) : list event :=
  [Rpc (get_test cid); LogDebug (waiting_msg cid); Sleep waiting_delay].

Fixpoint wait_rounds (n : nat) (cid : string) : list event :=
  match n with
  | O => []
  | S n' => wait_round cid ++ wait_rounds n' cid
  end.

(** The [finally] suite as events. *)
Definition teardown_events : list event :=
  [FlushRemainingScopes; StopEventSet; ThreadJoin].

(** What [start] does before it asks the master to validate, and the call. *)
Definition prologue (self : Worker) (w : world) : list event :=
  (if is_process_group_leader w then [] else [Setsid])
    ++ [RegisterHook;
        Rpc (connect (client_id self));
        Rpc (validate_collection (client_id self)
               (map (fun t => (file_path t, function_name t, variation_id t))
                  (collected_tests self)))].

(** The shapes a run of the loop can have.  A run is a sequence of rounds
    that go round again (the worker was told to wait, or ran a test whose
    result was acknowledged) closed by a last round: one that leaves the loop
    (a sentinel, or PROTOCOL_ERROR as acknowledgement), or one that is cut
    short by an exception or by an answer that never comes. *)
Section Rounds.

Variable self : Worker.

Inductive last_round : res unit -> list event -> Prop :=
| last_protocol_error :
    last_round (Ok tt)
      [Rpc (get_test (client_id self)); LogError (protocol_error_msg (client_id self))]
| last_finished_all_tests :
    last_round (Ok tt)
      [Rpc (get_test (client_id self)); LogDebug (finished_all_tests_msg (client_id self))]
| last_should_terminate :
    last_round (Ok tt)
      [Rpc (get_test (client_id self)); LogDebug (should_terminate_msg (client_id self))]
| last_ack_protocol_error (test_index : pyval) (t : test) (s : status) :
    py_getitem (collected_tests self) test_index = inr t ->
    last_round (Ok tt)
      (Rpc (get_test (client_id self)) :: dispatched self test_index t s
         ++ [LogError (protocol_error_msg (client_id self))])
| cut_at_get_test (r : res unit) :
    r <> Ok tt ->
    last_round r [Rpc (get_test (client_id self))]
| cut_at_run_tests (r : res unit) (test_index : pyval) (t : test) :
    r <> Ok tt ->
    py_getitem (collected_tests self) test_index = inr t ->
    last_round r
      [Rpc (get_test (client_id self)); SetCurrentParallelTestIndex test_index; RunTests t]
| cut_at_finished_test (r : res unit) (test_index : pyval) (t : test) (s : status) :
    r <> Ok tt ->
    py_getitem (collected_tests self) test_index = inr t ->
    last_round r (Rpc (get_test (client_id self)) :: dispatched self test_index t s).

Inductive loop_run : res unit -> list event -> Prop :=
| run_last (r : res unit) (tr : list event) :
    last_round r tr -> loop_run r tr
| run_wait (r : res unit) (tr : list event) :
    loop_run r tr -> loop_run r (wait_round (client_id self) ++ tr)
| run_dispatch (r : res unit) (test_index : pyval) (t : test) (s : status)
    (tr : list event) :
    py_getitem (collected_tests self) test_index = inr t ->
    loop_run r tr ->
    loop_run r (Rpc (get_test (client_id self)) :: dispatched self test_index t s ++ tr).

End Rounds.

(** What the [try] statement of [start] does between the loop and the
    [finally] suite, by the way the loop ended. *)
Definition on_exit (interruptions : list exn) (cid : string) (r : res unit) : list event :=
  match r with
  | Ok _ => [MarkComplete; Rpc (disconnect cid)]
  | Exc e => if isinstance e interruptions then [LogError interrupted_msg] else []
  | Hang => []
  end.

(** What [start] does after the loop of a validated worker. *)
Definition epilogue (interruptions : list exn) (cid : string) (r : res unit) : list event :=
  match r with
  | Hang => []
  | _ => on_exit interruptions cid r ++ teardown_events ++ [ExitStartedContext]
  end.




(** The four control codes as a list. *)
Definition sentinels (w p f s : pyval) : list pyval := [w; p; f; s].


Section Outcomes.

Variables WAITING_FOR_CLIENTS PROTOCOL_ERROR FINISHED_ALL_TESTS SHOULD_TERMINATE : pyval.




End Outcomes.

(** ** A worker and a master to run the model on *)

Module Sample.

Definition waiting : pyval := PyStr "WAITING_FOR_CLIENTS".
Definition protocol_error : pyval := PyStr "PROTOCOL_ERROR".
Definition finished : pyval := PyStr "NO_MORE_TESTS".
Definition terminate : pyval := PyStr "SHOULD_TERMINATE".
Definition interruptions : list exn := [KeyboardInterrupt; TerminatedException].

Definition t0 : test :=
  {| file_path := "test_00000.py"; function_name := "test_a"; variation_id := "0" |}.
Definition t1 : test :=
  {| file_path := "test_00000.py"; function_name := "test_b"; variation_id := "0" |}.
Definition t2 : test :=
  {| file_path := "test_00001.py"; function_name := "test_c"; variation_id := "0" |}.

Definition worker : Worker := Worker_init "w1" "s1" [t0; t1; t2] "localhost" "8000".

Definition ok : pyval := PyNone.

Definition world_of (validated : bool) (gets acks : list reply)
    (runs : list (exn + status)) : world :=
  {| is_process_group_leader := true;
     validate_collection_reply := validated;
     get_test_replies := gets;
     world_finished_test_replies := acks;
     world_run_tests_outcomes := runs |}.

Definition start_in (w : world) : res unit * list event :=
  run_start waiting protocol_error finished terminate interruptions worker w.

Definition idle : machine :=
  {| trace := []; finished_test_replies := []; run_tests_outcomes := [] |}.

(** A machine whose next test succeeds and is acknowledged, and one whose
    next result is answered with the protocol error. *)
Definition ready : machine :=
  {| trace := []; finished_test_replies := [Returns ok];
     run_tests_outcomes := [inr Success] |}.

Definition rejecting : machine :=
  {| trace := []; finished_test_replies := [Returns protocol_error];
     run_tests_outcomes := [inr Failure] |}.

Definition a_warning : warning_record :=
  {| message := "deprecated"; filename := "test_00000.py"; lineno := 12 |}.

(** A [pickle.dumps] that refuses every warning, one that pickles every
    warning, and a transport that cannot marshal what it is given. *)
Definition refusing_pickle (w : warning_record) : exn + string := inl PicklingError.
Definition pickling (w : warning_record) : exn + string := inr "pickled".
Definition transport_accepts (blob : string) : option exn := None.
Definition transport_rejects (blob : string) : option exn := Some TypeError.

End Sample.

(** ** The heartbeat thread *)

(** What the thread of [keep_alive] does: it pings the master through a
    proxy of its own, made from [self.server_addr], and waits on the stop
    event. *)
Inductive heartbeat_event : Type :=
| KeepAlive (server cid : string)
| StopEventWait (seconds : Z).

(** [keep_alive]: [is_set] holds what the calls of [stop_event.is_set()]
    answer, in order, and [pings] what the calls of [proxy.keep_alive] do
    (raise, or return).  The loop reads one answer of [is_set] per round. *)
Fixpoint keep_alive (self : Worker) (is_set : list bool) (pings : list (option exn))
    {struct is_set} : res unit * list heartbeat_event :=
  match is_set with
  | [] => (Hang, [])
  | true :: _ => (Ok tt, [])
  | false :: is_set' =>
      match pings with
      | [] => (Hang, [KeepAlive (server_addr self) (client_id self)])
      | Some e :: _ => (Exc e, [KeepAlive (server_addr self) (client_id self)])
      | None :: pings' =>
          let '(r, tr) := keep_alive self is_set' pings' in
          (r, KeepAlive (server_addr self) (client_id self) :: StopEventWait 1 :: tr)
      end
  end.

Definition is_keep_alive (e : heartbeat_event) : bool :=
  match e with KeepAlive _ _ => true | _ => false end.

(** The trace of [n] full rounds of the heartbeat. *)
Fixpoint heartbeats (n : nat) (self : Worker) : list heartbeat_event :=
  match n with
  | O => []
  | S n' => KeepAlive (server_addr self) (client_id self) :: StopEventWait 1
              :: heartbeats n' self
  end.

(** ** More readings of the trace of [start] *)

Definition is_thread_join (e : event) : bool :=
  match e with ThreadJoin => true | _ => false end.
Definition is_stop_event_set (e : event) : bool :=
  match e with StopEventSet => true | _ => false end.
Definition is_report_warning (e : event) : bool :=
  match e with Rpc (report_warning _ _) => true | _ => false end.

(** The tests handed to [run_tests], in the order of the calls. *)
Fixpoint ran (tr : list event) : list test :=
  match tr with
  | [] => []
  | RunTests t :: tr' => t :: ran tr'
  | _ :: tr' => ran tr'
  end.


(** * tests.utils.suite: the planned test suite of the self-tests

    [TestSuite] plans tests, grouped in classes and files, and checks the
    results of a session against the plan.  A planned test is one object
    that is reached from its class and from [_all_tests]: the objects live in
    a heap and both places hold references, so that a change made through
    one of them is seen through the other.  [_path] and [_committed] play no
    part in the functions embedded here. *)

Module Suite.

Definition _SUCCESS : string := "success".
Definition _FAILURE : string := "failure".
Definition _ERROR : string := "error".
Definition _SKIP : string := "skip".

Definition NUM_CLASSES_PER_FILE : nat := 3.
Definition NUM_TESTS_PER_CLASS : nat := 3.

(** The exceptions of this module: those of the builtins, [AssertionError]
    with its message, and [NotImplementedError]. *)
Inductive suite_exn : Type :=
| Builtin (e : exn)
| AssertionError (msg : string)
| NotImplementedError.

(** *** Planned tests *)

Record PlannedTest : Type := {
  test_id : nat;
  uuid : string;
  method_name : string;
  selected : bool;
  result : string
}.

(** [s.replace("-", "_")]. *)
Fixpoint replace_dashes (s : string) : string :=
  match s with
  | EmptyString => EmptyString
  | String c s' =>
      String (if Ascii.eqb c "-"%char then "_"%char else c) (replace_dashes s')
  end.

(** [PlannedTest.__init__], given what [str(uuid1())] returned; [result] is
    the class attribute until an instance attribute is set. *)
Definition PlannedTest_init (id : nat) (uuid1 : string) : PlannedTest :=
  {| test_id := id;
     uuid := replace_dashes uuid1;
     method_name := "test_" ++ replace_dashes uuid1;
     selected := true;
     result := _SUCCESS |}.

Definition rename (self : PlannedTest) (new_name : string) : PlannedTest :=
  {| test_id := test_id self; uuid := uuid self; method_name := new_name;
     selected := selected self; result := result self |}.

Definition expect_deselect (self : PlannedTest) : PlannedTest :=
  {| test_id := test_id self; uuid := uuid self; method_name := method_name self;
     selected := false; result := result self |}.

Definition set_result (self : PlannedTest) (r : string) : PlannedTest :=
  {| test_id := test_id self; uuid := uuid self; method_name := method_name self;
     selected := selected self; result := r |}.

Definition fail (self : PlannedTest) : PlannedTest := set_result self _FAILURE.

Definition fix_ (self : PlannedTest) : PlannedTest :=
  if negb (String.eqb (result self) _SKIP) then set_result self _SUCCESS else self.

(** [_generate_test_statements], as the list of what it yields. *)
Definition _generate_test_statements (self : PlannedTest) : suite_exn + list string :=
  if String.eqb (result self) _SUCCESS then inr ["pass"]
  else if String.eqb (result self) _FAILURE then inr ["assert 1 == 2"]
  else if String.eqb (result self) _ERROR then inr ["x = unknown"]
  else inl NotImplementedError.

(** What [_verify_results] reads of a result of the session. *)
Record observed : Type := {
  observed_method_name : string;   (* result.test_metadata.fqn.address_in_module.method_name *)
  is_started : bool;
  is_skip : bool;
  is_success : bool;
  is_failure : bool;
  is_error : bool
}.

(** [assert c]: nothing when [c] holds, [AssertionError] else. *)
Definition assert_ (c : bool) (msg : string) : option suite_exn :=
  if c then None else Some (AssertionError msg).

(** One check after another; the first exception ends the sequence. *)
Definition and_then (a b : option suite_exn) : option suite_exn :=
  match a with Some e => Some e | None => b end.

Definition verify_result (self : PlannedTest) (r : observed) : option suite_exn :=
  if String.eqb (result self) _SUCCESS then assert_ (is_success r) ""
  else if String.eqb (result self) _FAILURE then
    and_then (assert_ (is_failure r) "") (assert_ (negb (is_error r)) "")
  else if String.eqb (result self) _ERROR then
    and_then (assert_ (is_error r) "") (assert_ (negb (is_failure r)) "")
  else Some NotImplementedError.

Definition str_of_bool (b : bool) : string := if b then "True" else "False".
Definition str_of_nat (n : nat) : string := NilZero.string_of_uint (Nat.to_uint n).

Definition repr (self : PlannedTest) : string :=
  "<Planned test #" ++ str_of_nat (test_id self) ++ ", selected="
    ++ str_of_bool (selected self) ++ ", result=" ++ result self ++ ">".

(** *** Classes and files *)

Record Class : Type := {
  class_id : nat;
  tests : list nat                 (* references into the heap *)
}.

Definition Class_init (id : nat) : Class := {| class_id := id; tests := [] |}.

Definition can_add_test (self : Class) : bool :=
  (List.length (tests self) <? NUM_TESTS_PER_CLASS)%nat.

Record File : Type := {
  file_id : nat;
  classes : list Class
}.

Definition File_init (id : nat) : File := {| file_id := id; classes := [] |}.

Definition can_add_class (self : File) : bool :=
  (List.length (classes self) <? NUM_CLASSES_PER_FILE)%nat.

(** *** The suite *)

Record TestSuite : Type := {
  id_gen : nat;                    (* the next value of [itertools.count()] *)
  files : list File;
  _all_tests : list nat;           (* references into the heap *)
  heap : list PlannedTest          (* the planned tests made so far *)
}.

Definition TestSuite_init : TestSuite :=
  {| id_gen := 0; files := []; _all_tests := []; heap := [] |}.

(** [l[-1]]. *)
Definition last_item {A : Type} (l : list A) : option A :=
  match l with
  | [] => None
  | x :: l' => Some (last l' x)
  end.

(** A change of the object [l[-1]] in place. *)
Fixpoint on_last {A : Type} (f : A -> A) (l : list A) : list A :=
  match l with
  | [] => []
  | [x] => [f x]
  | x :: l' => x :: on_last f l'
  end.

(** A change of the heap object behind a reference, in place. *)
Fixpoint on_object (ref : nat) (f : PlannedTest -> PlannedTest) (h : list PlannedTest)
    : list PlannedTest :=
  match h, ref with
  | [], _ => []
  | x :: h', O => f x :: h'
  | x :: h', S ref' => x :: on_object ref' f h'
  end.

Definition set_files (self : TestSuite) (fs : list File) : TestSuite :=
  {| id_gen := id_gen self; files := fs; _all_tests := _all_tests self;
     heap := heap self |}.

Definition set_heap (self : TestSuite) (h : list PlannedTest) : TestSuite :=
  {| id_gen := id_gen self; files := files self; _all_tests := _all_tests self;
     heap := h |}.

(** [next(self.id_gen)]: the value, and the suite with the counter moved. *)
Definition next_id (self : TestSuite) : nat * TestSuite :=
  (id_gen self,
   {| id_gen := S (id_gen self); files := files self; _all_tests := _all_tests self;
      heap := heap self |}).

(** [_get_file_for_adding_class]; the file it returns is [self.files[-1]]
    of the suite it leaves. *)
Definition _get_file_for_adding_class (self : TestSuite) : TestSuite :=
  let append_file :=
    let '(id, self1) := next_id self in
    set_files self1 (files self1 ++ [File_init id]) in
  match last_item (files self) with
  | None => append_file
  | Some f => if negb (can_add_class f) then append_file else self
  end.

(** [_get_class_for_adding_test]; the class it returns is
    [self.files[-1].classes[-1]] of the suite it leaves. *)
Definition _get_class_for_adding_test (self : TestSuite) : suite_exn + TestSuite :=
  let add_class :=
    let '(id, self1) := next_id self in
    let new_class := Class_init id in
    let self2 := _get_file_for_adding_class self1 in
    set_files self2
      (on_last (fun f => {| file_id := file_id f; classes := classes f ++ [new_class] |})
         (files self2)) in
  match last_item (files self) with
  | None => inr add_class
  | Some f =>
      match last_item (classes f) with
      | None => inl (Builtin IndexError)
      | Some c => if negb (can_add_test c) then inr self else inr add_class
      end
  end.

Section WithUuid.

(** [uuid1 k] is what [str(uuid1())] returns at its call number [k]; the
    calls are those of [PlannedTest.__init__], one per object of the heap. *)
Variable uuid1 : nat -> string.

(** [add_test]: the suite it leaves and the reference of the new test. *)
Definition add_test (self : TestSuite) : suite_exn + (TestSuite * nat) :=
  let '(id, self1) := next_id self in
  let ref := List.length (heap self1) in
  let self2 := set_heap self1 (heap self1 ++ [PlannedTest_init id (uuid1 ref)]) in
  match _get_class_for_adding_test self2 with
  | inl e => inl e
  | inr self3 =>
      let self4 :=
        set_files self3
          (on_last
             (fun f => {| file_id := file_id f;
                          classes := on_last
                                       (fun c => {| class_id := class_id c;
                                                    tests := tests c ++ [ref] |})
                                       (classes f) |})
             (files self3)) in
      inr ({| id_gen := id_gen self4; files := files self4;
              _all_tests := _all_tests self4 ++ [ref]; heap := heap self4 |}, ref)
  end.

(** [populate]: [range(num_tests)] is empty for a negative number. *)
Fixpoint populate_ (n : nat) (self : TestSuite) : suite_exn + TestSuite :=
  match n with
  | O => inr self
  | S n' =>
      match add_test self with
      | inl e => inl e
      | inr (self', _) => populate_ n' self'
      end
  end.

Definition populate (self : TestSuite) (num_tests : Z) : suite_exn + TestSuite :=
  populate_ (Z.to_nat num_tests) self.

End WithUuid.

(** The object behind a reference. *)
Definition deref (self : TestSuite) (ref : nat) : option PlannedTest :=
  nth_error (heap self) ref.

Fixpoint deref_all (self : TestSuite) (refs : list nat) : list PlannedTest :=
  match refs with
  | [] => []
  | r :: refs' =>
      match deref self r with
      | Some t => t :: deref_all self refs'
      | None => deref_all self refs'
      end
  end.

(** The property [tests]: the tests of every class of every file, in order;
    here as references. *)
Definition tests_refs (self : TestSuite) : list nat :=
  flat_map (fun f => flat_map tests (classes f)) (files self).

Definition tests_ (self : TestSuite) : list PlannedTest :=
  deref_all self (tests_refs self).

Definition len (self : TestSuite) : nat := List.length (_all_tests self).

(** [self[idx]]: the reference of the test. *)
Definition getitem (self : TestSuite) (idx : Z) : exn + nat :=
  py_getitem (_all_tests self) (PyInt idx).

(** [fix_all]. *)
Definition fix_all (self : TestSuite) : TestSuite :=
  fold_left (fun s ref => set_heap s (on_object ref fix_ (heap s))) (_all_tests self) self.

(** [fail_in_middle]: the suite it leaves and the index it returns. *)
Definition fail_in_middle (self : TestSuite) : suite_exn + (TestSuite * Z) :=
  let index := (Z.of_nat (len self) / 2)%Z in
  if negb (negb (index =? 0)%Z && negb (index =? Z.of_nat (len self) - 1)%Z)
  then inl (AssertionError "")
  else
    match getitem self index with
    | inl e => inl (Builtin e)
    | inr ref => inr (set_heap self (on_object ref fail (heap self)), index)
    end.

(** *** Checking the results of a session *)

(** [s[n:]]. *)
Fixpoint drop (n : nat) (s : string) : string :=
  match n, s with
  | O, _ => s
  | S n', String _ s' => drop n' s'
  | S _, EmptyString => EmptyString
  end.

(** The dict [results_by_test_uuid]: the binding made last is found first. *)
Definition dict : Type := list (string * observed).

Fixpoint dict_get (k : string) (d : dict) : option observed :=
  match d with
  | [] => None
  | (k', v) :: d' => if String.eqb k k' then Some v else dict_get k d'
  end.

(** The first loop of [_verify_results]. *)
Fixpoint index_results (results : list observed) (d : dict) : suite_exn + dict :=
  match results with
  | [] => inr d
  | r :: results' =>
      if String.prefix "test_" (observed_method_name r)
      then index_results results' ((drop 5 (observed_method_name r), r) :: d)
      else inl (AssertionError "")
  end.

(** The second loop of [_verify_results]: [None] when no check fails. *)
Fixpoint verify_tests (stop_on_error : bool) (d : dict) (planned : list PlannedTest)
    (should_skip : bool) : option suite_exn :=
  match planned with
  | [] => None
  | test :: rest =>
      let r := dict_get (uuid test) d in
      if negb (selected test) then
        match r with
        | Some _ =>
            Some (AssertionError ("Deselected test " ++ repr test ++ " unexpectedly run!"))
        | None => verify_tests stop_on_error d rest should_skip
        end
      else
        match r with
        | None => Some (AssertionError ("Result for " ++ repr test ++ " not found"))
        | Some r =>
            match (if should_skip
                   then and_then (assert_ (negb (is_started r)) "") (assert_ (is_skip r) "")
                   else verify_result test r) with
            | Some e => Some e
            | None =>
                verify_tests stop_on_error d rest
                  (if (is_error r || is_failure r && stop_on_error)%bool
                   then true else should_skip)
            end
        end
  end.

(** [_verify_results], given the results of the session in the order of
    [iter_test_results()] and the truth value of [stop_on_error]. *)
Definition _verify_results (self : TestSuite) (results : list observed)
    (stop_on_error : bool) : option suite_exn :=
  match index_results results [] with
  | inl e => Some e
  | inr d => verify_tests stop_on_error d (deref_all self (_all_tests self)) false
  end.

(** *** Shapes of a suite *)

Definition all_classes (self : TestSuite) : list Class :=
  flat_map classes (files self).

(** Every id handed out so far: those of the tests, the classes, the files. *)
Definition all_ids (self : TestSuite) : list nat :=
  map test_id (heap self) ++ map class_id (all_classes self) ++ map file_id (files self).

(** *** What [add_test] keeps *)

(** The class [add_test] makes for the test it adds. *)
Definition grown_class (self : TestSuite) : Class :=
  {| class_id := S (id_gen self); tests := [List.length (heap self)] |}.

(** A suite that [add_test] built: [_all_tests] holds every planned test in
    the order of creation and [tests] walks them in that order, every class
    holds one test, every file but the last is full and the last is not
    empty, and the ids in use are distinct and are the numbers below the
    counter. *)
Record well_formed (self : TestSuite) : Prop := {
  wf_refs : _all_tests self = seq 0 (List.length (heap self));
  wf_view : tests_refs self = _all_tests self;
  wf_classes : Forall (fun c => List.length (tests c) = 1) (all_classes self);
  wf_files :
    files self = []
    \/ exists init l,
         files self = init ++ [l]
         /\ Forall (fun f => List.length (classes f) = 3) init
         /\ 1 <= List.length (classes l) <= 3;
  wf_fresh : Forall (fun i => i < id_gen self) (all_ids self);
  wf_distinct : NoDup (all_ids self);
  wf_next : id_gen self = List.length (all_ids self)
}.

(** A planned test as [PlannedTest.__init__] leaves it. *)
Definition pristine (t : PlannedTest) : Prop :=
  selected t = true /\ result t = _SUCCESS /\ method_name t = ("test_" ++ uuid t)%string.

(** The result of a test that was started and succeeded. *)
Definition passed (t : PlannedTest) : observed :=
  {| observed_method_name := method_name t;
     is_started := true; is_skip := false;
     is_success := true; is_failure := false; is_error := false |}.

End Suite.


(** A suite and a session to run the checks on. *)
Module SuiteSample.

(** Distinct uuids, each with a dash. *)
Fixpoint uuid1 (k : nat) : string :=
  match k with
  | O => "0-0"
  | S k' => String "a" (uuid1 k')
  end.

Definition errored : Suite.PlannedTest :=
  Suite.set_result (Suite.PlannedTest_init 0 "e-1") Suite._ERROR.
Definition later : Suite.PlannedTest := Suite.PlannedTest_init 3 "f-2".
Definition skipped : Suite.PlannedTest :=
  Suite.set_result (Suite.PlannedTest_init 5 "s-3") Suite._SKIP.

Definition suite : Suite.TestSuite :=
  {| Suite.id_gen := 7; Suite.files := []; Suite._all_tests := [0; 1];
     Suite.heap := [errored; later] |}.

Definition mixed : Suite.TestSuite :=
  {| Suite.id_gen := 7; Suite.files := []; Suite._all_tests := [0; 1; 2];
     Suite.heap := [errored; later; skipped] |}.

Definition error_result : Suite.observed :=
  {| Suite.observed_method_name := "test_e_1";
     Suite.is_started := true; Suite.is_skip := false;
     Suite.is_success := false; Suite.is_failure := false; Suite.is_error := true |}.

Definition skip_result : Suite.observed :=
  {| Suite.observed_method_name := "test_f_2";
     Suite.is_started := false; Suite.is_skip := true;
     Suite.is_success := false; Suite.is_failure := false; Suite.is_error := false |}.

End SuiteSample.

(** A [pickle.dumps] that refuses a payload the way it refuses an object of
    a local class. *)
Module WarningSample.

Definition local_object_pickle (w : warning_record) : exn + string := inl AttributeError.

End WarningSample.

(** * Properties *)

(** ** Equality of values and bookkeeping of traces *)

Lemma py_eqb_eq (a b : pyval) : py_eqb a b = true <-> a = b.
Proof.
  destruct a as [x|x|], b as [y|y|]; simpl; split; intro H;
    try discriminate; try reflexivity.
  - apply Z.eqb_eq in H. now subst.
  - injection H as ->. apply Z.eqb_refl.
  - apply String.eqb_eq in H. now subst.
  - injection H as ->. apply String.eqb_refl.
Qed.

Lemma py_eqb_refl (a : pyval) : py_eqb a a = true.
Proof. now apply py_eqb_eq. Qed.

Lemma py_eqb_neq (a b : pyval) : a <> b -> py_eqb a b = false.
Proof.
  intro H. destruct (py_eqb a b) eqn:E; [|reflexivity].
  apply py_eqb_eq in E. contradiction.
Qed.


Lemma not_in_sentinels (v w p f s : pyval) :
  ~ In v (sentinels w p f s) <-> v <> w /\ v <> p /\ v <> f /\ v <> s.
Proof.
  unfold sentinels. simpl. split.
  - intro H. repeat split; intro E; apply H; subst; auto.
  - intros (Hw & Hp & Hf & Hs) [E|[E|[E|[E|[]]]]]; subst; auto.
Qed.

Lemma emits_nil (m : machine) : emits [] m = m.
Proof. destruct m. unfold emits. simpl. now rewrite app_nil_r. Qed.

Lemma emits_emits (a b : list event) (m : machine) :
  emits b (emits a m) = emits (a ++ b) m.
Proof. unfold emits. simpl. now rewrite app_assoc. Qed.

Lemma record_event_emits (e : event) (es : list event) (m : machine) :
  record_event e (emits es m) = emits (es ++ [e]) m.
Proof. unfold record_event, emits. simpl. now rewrite app_assoc. Qed.

Lemma record_event_one (e : event) (m : machine) : record_event e m = emits [e] m.
Proof. reflexivity. Qed.

Lemma count_app (p : event -> bool) (a b : list event) :
  count p (a ++ b) = count p a + count p b.
Proof. unfold count. now rewrite filter_app, length_app. Qed.

(** Unfolds the monad in the goal and gathers the events emitted. *)
Ltac run_monad :=
  repeat (progress (unfold with_context, try_except_else, finally, bind, emit, ret,
                      raise, hang, answer, of_sum;
                    cbn beta iota));
  rewrite ?record_event_one, ?emits_emits;
  cbn [app trace finished_test_replies run_tests_outcomes emits].

(** Writes the machines of the goal as records with one flat trace. *)
Ltac flat_trace :=
  unfold emits, record_event;
  cbn [trace finished_test_replies run_tests_outcomes];
  rewrite <- ?app_assoc; cbn [app]; rewrite ?app_nil_r.

(** Closes a goal [trace m' = trace m ++ ?tr] for a machine [m'] built from [m]. *)
Ltac trace_eq :=
  unfold emits, record_event;
  cbn [trace finished_test_replies run_tests_outcomes];
  rewrite <- ?app_assoc; cbn [app]; reflexivity.


Section Facts.

Variables WAITING_FOR_CLIENTS PROTOCOL_ERROR FINISHED_ALL_TESTS SHOULD_TERMINATE : pyval.
Variable INTERRUPTION_EXCEPTIONS : list exn.

Local Abbreviation loop := (run_loop WAITING_FOR_CLIENTS PROTOCOL_ERROR
                          FINISHED_ALL_TESTS SHOULD_TERMINATE).
Local Abbreviation guarded := (guarded_run WAITING_FOR_CLIENTS PROTOCOL_ERROR
                             FINISHED_ALL_TESTS SHOULD_TERMINATE INTERRUPTION_EXCEPTIONS).
Local Abbreviation start_ := (start WAITING_FOR_CLIENTS PROTOCOL_ERROR
                            FINISHED_ALL_TESTS SHOULD_TERMINATE INTERRUPTION_EXCEPTIONS).
Local Abbreviation run_start_ := (run_start WAITING_FOR_CLIENTS PROTOCOL_ERROR
                                FINISHED_ALL_TESTS SHOULD_TERMINATE INTERRUPTION_EXCEPTIONS).
Local Abbreviation the_sentinels := (sentinels WAITING_FOR_CLIENTS PROTOCOL_ERROR
                                   FINISHED_ALL_TESTS SHOULD_TERMINATE).

(** *** One round of the loop, by the reply of [get_test] *)

Lemma loop_stopped (self : Worker) (replies : list reply) (m : machine) :
  loop self replies true m = (Ok tt, m).
Proof. destruct replies; reflexivity. Qed.

Lemma loop_no_reply (self : Worker) (m : machine) :
  loop self [] false m = (Hang, emits [Rpc (get_test (client_id self))] m).
Proof. reflexivity. Qed.

Lemma loop_get_test_raises (self : Worker) (e : exn) (rest : list reply) (m : machine) :
  loop self (Raises e :: rest) false m
  = (Exc e, emits [Rpc (get_test (client_id self))] m).
Proof. reflexivity. Qed.

Lemma loop_waiting (self : Worker) (rest : list reply) (m : machine) :
  loop self (Returns WAITING_FOR_CLIENTS :: rest) false m
  = loop self rest false
      (emits [Rpc (get_test (client_id self));
              LogDebug (waiting_msg (client_id self));
              Sleep waiting_delay] m).
Proof.
  cbn [run_loop]. run_monad. rewrite py_eqb_refl. run_monad. reflexivity.
Qed.

Lemma loop_protocol_error (self : Worker) (rest : list reply) (m : machine) :
  PROTOCOL_ERROR <> WAITING_FOR_CLIENTS ->
  loop self (Returns PROTOCOL_ERROR :: rest) false m
  = (Ok tt, emits [Rpc (get_test (client_id self));
                   LogError (protocol_error_msg (client_id self))] m).
Proof.
  intro Hw. cbn [run_loop]. run_monad.
  rewrite (py_eqb_neq _ _ Hw), py_eqb_refl. run_monad. reflexivity.
Qed.

Lemma loop_finished_all_tests (self : Worker) (rest : list reply) (m : machine) :
  FINISHED_ALL_TESTS <> WAITING_FOR_CLIENTS ->
  FINISHED_ALL_TESTS <> PROTOCOL_ERROR ->
  loop self (Returns FINISHED_ALL_TESTS :: rest) false m
  = (Ok tt, emits [Rpc (get_test (client_id self));
                   LogDebug (finished_all_tests_msg (client_id self))] m).
Proof.
  intros Hw Hp. cbn [run_loop]. run_monad.
  rewrite (py_eqb_neq _ _ Hw), (py_eqb_neq _ _ Hp), py_eqb_refl. run_monad. reflexivity.
Qed.

Lemma loop_should_terminate (self : Worker) (rest : list reply) (m : machine) :
  SHOULD_TERMINATE <> WAITING_FOR_CLIENTS ->
  SHOULD_TERMINATE <> PROTOCOL_ERROR ->
  SHOULD_TERMINATE <> FINISHED_ALL_TESTS ->
  loop self (Returns SHOULD_TERMINATE :: rest) false m
  = (Ok tt, emits [Rpc (get_test (client_id self));
                   LogDebug (should_terminate_msg (client_id self))] m).
Proof.
  intros Hw Hp Hf. cbn [run_loop]. run_monad.
  rewrite (py_eqb_neq _ _ Hw), (py_eqb_neq _ _ Hp), (py_eqb_neq _ _ Hf), py_eqb_refl.
  run_monad. reflexivity.
Qed.

(** A reply that is none of the four sentinels is dispatched. *)
Lemma loop_index (self : Worker) (test_index : pyval) (rest : list reply) (m : machine) :
  ~ In test_index the_sentinels ->
  loop self (Returns test_index :: rest) false m
  = (should_stop <- dispatch PROTOCOL_ERROR self test_index ;;
     loop self rest should_stop) (emits [Rpc (get_test (client_id self))] m).
Proof.
  intro H. apply not_in_sentinels in H. destruct H as (Hw & Hp & Hf & Hs).
  cbn [run_loop]. run_monad.
  rewrite (py_eqb_neq _ _ Hw), (py_eqb_neq _ _ Hp), (py_eqb_neq _ _ Hf), (py_eqb_neq _ _ Hs).
  reflexivity.
Qed.

Lemma dispatch_unresolved (self : Worker) (test_index : pyval) (e : exn) (m : machine) :
  py_getitem (collected_tests self) test_index = inl e ->
  dispatch PROTOCOL_ERROR self test_index m = (Exc e, m).
Proof. intro H. unfold dispatch. rewrite H. reflexivity. Qed.

Lemma dispatch_acknowledged (self : Worker) (test_index ack : pyval) (t : test)
    (s : status) (runs : list (exn + status)) (acks : list reply) (m : machine) :
  py_getitem (collected_tests self) test_index = inr t ->
  run_tests_outcomes m = inr s :: runs ->
  finished_test_replies m = Returns ack :: acks ->
  dispatch PROTOCOL_ERROR self test_index m
  = (Ok (py_eqb ack PROTOCOL_ERROR),
     {| trace := trace m ++ dispatched self test_index t s
                   ++ (if py_eqb ack PROTOCOL_ERROR
                       then [LogError (protocol_error_msg (client_id self))] else []);
        finished_test_replies := acks;
        run_tests_outcomes := runs |}).
Proof.
  intros Hi Hr Ha. unfold dispatch, run_tests, call_finished_test, serialize.
  rewrite Hi. run_monad. rewrite Hr. run_monad. rewrite Ha. run_monad.
  destruct (py_eqb ack PROTOCOL_ERROR); run_monad; unfold dispatched; flat_trace;
    reflexivity.
Qed.

(** A value that is no sentinel and does not resolve ends the loop with the
    exception of the lookup. *)
Lemma loop_unresolved_index (self : Worker) (test_index : pyval) (e : exn)
    (rest : list reply) (m : machine) :
  ~ In test_index the_sentinels ->
  py_getitem (collected_tests self) test_index = inl e ->
  loop self (Returns test_index :: rest) false m
  = (Exc e, emits [Rpc (get_test (client_id self))] m).
Proof.
  intros Hs Hi. rewrite (loop_index _ _ _ _ Hs). unfold bind.
  now rewrite (dispatch_unresolved _ _ _ _ Hi).
Qed.

Lemma loop_dispatch_acknowledged (self : Worker) (test_index ack : pyval) (t : test)
    (s : status) (runs : list (exn + status)) (acks rest : list reply) (m : machine) :
  ~ In test_index the_sentinels ->
  py_getitem (collected_tests self) test_index = inr t ->
  run_tests_outcomes m = inr s :: runs ->
  finished_test_replies m = Returns ack :: acks ->
  loop self (Returns test_index :: rest) false m
  = loop self rest (py_eqb ack PROTOCOL_ERROR)
      {| trace := trace m ++ Rpc (get_test (client_id self))
                    :: dispatched self test_index t s
                    ++ (if py_eqb ack PROTOCOL_ERROR
                        then [LogError (protocol_error_msg (client_id self))] else []);
         finished_test_replies := acks;
         run_tests_outcomes := runs |}.
Proof.
  intros Hs Hi Hr Ha. rewrite (loop_index _ _ _ _ Hs). unfold bind.
  rewrite (dispatch_acknowledged self test_index ack t s runs acks) by assumption.
  flat_trace. reflexivity.
Qed.

Lemma wait_rounds_counts (n : nat) (cid : string) :
  count is_sleep (wait_rounds n cid) = n
  /\ count is_get_test (wait_rounds n cid) = n
  /\ count is_log_error (wait_rounds n cid) = 0
  /\ count is_run_tests (wait_rounds n cid) = 0.
Proof.
  induction n as [|n (IH1 & IH2 & IH3 & IH4)]; [now cbn|].
  cbn [wait_rounds]. rewrite !count_app, IH1, IH2, IH3, IH4. now cbn.
Qed.

Lemma loop_waiting_rounds (self : Worker) (n : nat) (rest : list reply) (m : machine) :
  loop self (repeat (Returns WAITING_FOR_CLIENTS) n ++ rest) false m
  = loop self rest false (emits (wait_rounds n (client_id self)) m).
Proof.
  revert m. induction n as [|n IH]; intro m.
  - cbn [repeat app wait_rounds]. now rewrite emits_nil.
  - cbn [repeat app wait_rounds]. rewrite loop_waiting, IH, emits_emits. reflexivity.
Qed.

(** *** The claims about single runs *)

(** C7. When [get_test] returns WAITING_FOR_CLIENTS the worker logs a debug
    record, sleeps for the fixed delay and asks again: [n] such replies cost
    [n] sleeps and [n] calls of [get_test], no error is logged and no test
    is run, and the loop goes on with the replies that follow.  With two such
    replies and then a value that is no sentinel, the value is dispatched
    after exactly the two waiting rounds. *)
Theorem waiting_sleeps_then_asks_again (self : Worker) (n : nat) (test_index : pyval)
    (rest : list reply) (m : machine) :
  ~ In test_index the_sentinels ->
  loop self (repeat (Returns WAITING_FOR_CLIENTS) n ++ rest) false m
    = loop self rest false (emits (wait_rounds n (client_id self)) m)
  /\ count is_sleep (wait_rounds n (client_id self)) = n
  /\ count is_get_test (wait_rounds n (client_id self)) = n
  /\ count is_log_error (wait_rounds n (client_id self)) = 0
  /\ count is_run_tests (wait_rounds n (client_id self)) = 0
  /\ Forall (fun e => is_sleep e = true -> e = Sleep waiting_delay)
       (wait_rounds n (client_id self))
  /\ loop self (Returns WAITING_FOR_CLIENTS :: Returns WAITING_FOR_CLIENTS
                  :: Returns test_index :: rest) false m
     = (should_stop <- dispatch PROTOCOL_ERROR self test_index ;;
        loop self rest should_stop)
         (emits (wait_round (client_id self) ++ wait_round (client_id self)
                   ++ [Rpc (get_test (client_id self))]) m).
Proof.
  intro Hs.
  destruct (wait_rounds_counts n (client_id self)) as (C1 & C2 & C3 & C4).
  repeat split; try assumption.
  - apply loop_waiting_rounds.
  - induction n as [|n IH]; [constructor|].
    cbn [wait_rounds wait_round app].
    repeat (constructor; [cbn; try discriminate; reflexivity|]).
    destruct (wait_rounds_counts n (client_id self)) as (D1 & D2 & D3 & D4).
    now apply IH.
  - rewrite !loop_waiting, (loop_index _ _ _ _ Hs), !emits_emits. reflexivity.
Qed.

(** C8. When [finished_test] answers PROTOCOL_ERROR the loop ends with that
    round: the result was handed to the master before the answer came, the
    error is logged, and whatever [get_test] would have answered next is
    never asked for. *)
Theorem protocol_error_ack_ends_loop (self : Worker) (test_index : pyval) (t : test)
    (s : status) (runs : list (exn + status)) (acks rest : list reply) (m : machine) :
  ~ In test_index the_sentinels ->
  py_getitem (collected_tests self) test_index = inr t ->
  run_tests_outcomes m = inr s :: runs ->
  finished_test_replies m = Returns PROTOCOL_ERROR :: acks ->
  let round := Rpc (get_test (client_id self))
                 :: dispatched self test_index t s
                 ++ [LogError (protocol_error_msg (client_id self))] in
  loop self (Returns test_index :: rest) false m
    = (Ok tt, {| trace := trace m ++ round;
                 finished_test_replies := acks;
                 run_tests_outcomes := runs |})
  /\ count is_get_test round = 1
  /\ count is_run_tests round = 1
  /\ submitted round = [{| result_test := t; result_status := s |}].
Proof.
  intros Hs Hi Hr Ha round. subst round. repeat split.
  rewrite (loop_dispatch_acknowledged self test_index PROTOCOL_ERROR t s runs acks)
    by assumption.
  rewrite py_eqb_refl. apply loop_stopped.
Qed.

(** C2. When [validate_collection] answers false, [start] logs an error that
    names the worker, calls [disconnect] once and returns: it never calls
    [get_test], never starts the heartbeat thread, runs no test and does not
    mark the session complete. *)
Theorem collection_mismatch_ends_worker (self : Worker) (w : world) :
  validate_collection_reply w = false ->
  let tr := prologue self w
              ++ [LogError (collection_mismatch_msg (client_id self));
                  Rpc (disconnect (client_id self))] in
  run_start_ self w = (Ok tt, tr)
  /\ collection_mismatch_msg (client_id self)
     = ("Collections of worker id " ++ client_id self
          ++ " and master don't match, worker terminates")%string
  /\ count is_disconnect tr = 1
  /\ count is_get_test tr = 0
  /\ count is_thread_start tr = 0
  /\ count is_run_tests tr = 0
  /\ count is_mark_complete tr = 0.
Proof.
  intros Hv tr. subst tr. unfold run_start, start, prologue, collection_of.
  rewrite Hv. cbn [negb].
  destruct (is_process_group_leader w); cbn [negb]; run_monad; flat_trace;
    repeat split.
Qed.

(** C3. A worker with three collected tests that is handed index 0, then
    index 1, then FINISHED_ALL_TESTS, both results being acknowledged:
    [start] submits the result of test 0 and then the result of test 1,
    asks for a test three times, marks the session complete, calls
    [disconnect] once and returns. *)
Theorem two_tests_then_finished (self : Worker) (w : world) (t0 t1 t2 : test)
    (s0 s1 : status) (ack0 ack1 : pyval) (acks rest : list reply)
    (runs : list (exn + status)) :
  collected_tests self = [t0; t1; t2] ->
  validate_collection_reply w = true ->
  get_test_replies w
    = Returns (PyInt 0) :: Returns (PyInt 1) :: Returns FINISHED_ALL_TESTS :: rest ->
  world_run_tests_outcomes w = inr s0 :: inr s1 :: runs ->
  world_finished_test_replies w = Returns ack0 :: Returns ack1 :: acks ->
  ack0 <> PROTOCOL_ERROR ->
  ack1 <> PROTOCOL_ERROR ->
  ~ In (PyInt 0) the_sentinels ->
  ~ In (PyInt 1) the_sentinels ->
  FINISHED_ALL_TESTS <> WAITING_FOR_CLIENTS ->
  FINISHED_ALL_TESTS <> PROTOCOL_ERROR ->
  let tr := prologue self w
              ++ [ThreadStart; EnterStartedContext]
              ++ Rpc (get_test (client_id self)) :: dispatched self (PyInt 0) t0 s0
              ++ Rpc (get_test (client_id self)) :: dispatched self (PyInt 1) t1 s1
              ++ [Rpc (get_test (client_id self));
                  LogDebug (finished_all_tests_msg (client_id self));
                  MarkComplete;
                  Rpc (disconnect (client_id self))]
              ++ teardown_events ++ [ExitStartedContext] in
  run_start_ self w = (Ok tt, tr)
  /\ submitted tr = [{| result_test := t0; result_status := s0 |};
                     {| result_test := t1; result_status := s1 |}]
  /\ count is_get_test tr = 3
  /\ count is_run_tests tr = 2
  /\ count is_mark_complete tr = 1
  /\ count is_disconnect tr = 1.
Proof.
  intros Hc Hv Hg Hr Ha Hk0 Hk1 H0 H1 Hfw Hfp tr. subst tr.
  assert (G0 : py_getitem (collected_tests self) (PyInt 0) = inr t0)
    by (rewrite Hc; reflexivity).
  assert (G1 : py_getitem (collected_tests self) (PyInt 1) = inr t1)
    by (rewrite Hc; reflexivity).
  split.
  - unfold run_start, start, guarded_run, teardown, prologue, collection_of.
    rewrite Hv, Hg. cbn [negb].
    destruct (is_process_group_leader w); cbn [negb]; run_monad;
      (rewrite (loop_dispatch_acknowledged self (PyInt 0) ack0 t0 s0
                  (inr s1 :: runs) (Returns ack1 :: acks)); auto;
       rewrite (py_eqb_neq _ _ Hk0);
       rewrite (loop_dispatch_acknowledged self (PyInt 1) ack1 t1 s1 runs acks); auto;
       rewrite (py_eqb_neq _ _ Hk1);
       rewrite loop_finished_all_tests by assumption;
       run_monad; unfold dispatched, teardown_events; flat_trace; reflexivity).
  - unfold prologue. destruct (is_process_group_leader w); repeat split.
Qed.

(** *** The shape of every run *)

Lemma loop_runs (self : Worker) (replies : list reply) :
  forall (m : machine) (r : res unit) (m' : machine),
    loop self replies false m = (r, m') ->
    exists tr, trace m' = trace m ++ tr /\ loop_run self r tr.
Proof.
  induction replies as [|r0 rest IH]; intros m r m'.
  - rewrite loop_no_reply. intro H. injection H as <- <-.
    eexists. split; [trace_eq|]. apply run_last, cut_at_get_test. discriminate.
  - destruct r0 as [v|e].
    2:{ rewrite loop_get_test_raises. intro H. injection H as <- <-.
        eexists. split; [trace_eq|]. apply run_last, cut_at_get_test. discriminate. }
    cbn [run_loop]. run_monad.
    destruct (py_eqb v WAITING_FOR_CLIENTS) eqn:EW.
    { run_monad. intro H. apply IH in H. destruct H as (tr & Ht & Hr).
      exists (wait_round (client_id self) ++ tr). split; [|now apply run_wait].
      rewrite Ht. flat_trace. reflexivity. }
    destruct (py_eqb v PROTOCOL_ERROR) eqn:EP.
    { run_monad. intro H. injection H as <- <-.
      eexists. split; [trace_eq|]. apply run_last, last_protocol_error. }
    destruct (py_eqb v FINISHED_ALL_TESTS) eqn:EF.
    { run_monad. intro H. injection H as <- <-.
      eexists. split; [trace_eq|]. apply run_last, last_finished_all_tests. }
    destruct (py_eqb v SHOULD_TERMINATE) eqn:ES.
    { run_monad. intro H. injection H as <- <-.
      eexists. split; [trace_eq|]. apply run_last, last_should_terminate. }
    unfold dispatch, run_tests, call_finished_test, serialize.
    destruct (py_getitem (collected_tests self) v) as [e|t] eqn:EG.
    { run_monad. intro H. injection H as <- <-.
      eexists. split; [trace_eq|]. apply run_last, cut_at_get_test. discriminate. }
    run_monad.
    destruct (run_tests_outcomes m) as [|[e|s] runs] eqn:ER.
    { intro H. injection H as <- <-. eexists. split; [trace_eq|].
      apply run_last, cut_at_run_tests; [discriminate|assumption]. }
    { intro H. injection H as <- <-. eexists. split; [trace_eq|].
      apply run_last, cut_at_run_tests; [discriminate|assumption]. }
    run_monad.
    destruct (finished_test_replies m) as [|[ack|e] acks] eqn:EA.
    { intro H. injection H as <- <-. eexists. split; [trace_eq|].
      apply run_last, cut_at_finished_test; [discriminate|assumption]. }
    2:{ run_monad. intro H. injection H as <- <-. eexists. split; [trace_eq|].
        apply run_last, cut_at_finished_test; [discriminate|assumption]. }
    run_monad. destruct (py_eqb ack PROTOCOL_ERROR) eqn:EK; run_monad.
    + rewrite loop_stopped. intro H. injection H as <- <-.
      eexists. split; [|apply run_last, (last_ack_protocol_error self v t s EG)].
      unfold dispatched. flat_trace. reflexivity.
    + intro H. apply IH in H. destruct H as (tr & Ht & Hr).
      exists (Rpc (get_test (client_id self)) :: dispatched self v t s ++ tr).
      split; [|now apply run_dispatch].
      rewrite Ht. unfold dispatched. flat_trace. reflexivity.
Qed.

(** *** From the loop to [start] *)

Lemma guarded_after_loop (self : Worker) (replies : list reply) (m m1 : machine)
    (r : res unit) :
  loop self replies false m = (r, m1) ->
  guarded self replies m
  = match r with
    | Hang => (Hang, m1)
    | _ => (r, emits (on_exit INTERRUPTION_EXCEPTIONS (client_id self) r
                        ++ teardown_events) m1)
    end.
Proof.
  intro H. unfold guarded_run, teardown. run_monad. rewrite H.
  destruct r as [[]|e|]; cbn [on_exit].
  - run_monad. reflexivity.
  - destruct (isinstance e INTERRUPTION_EXCEPTIONS); run_monad; reflexivity.
  - reflexivity.
Qed.

(** The machine on which the loop of [start] begins. *)
Lemma start_validated (self : Worker) (w : world) (r : res unit) (m1 : machine) :
  validate_collection_reply w = true ->
  loop self (get_test_replies w) false
    (emits (prologue self w ++ [ThreadStart; EnterStartedContext]) (boot w)) = (r, m1) ->
  run_start_ self w
  = (r, trace m1
          ++ match r with
             | Hang => []
             | _ => on_exit INTERRUPTION_EXCEPTIONS (client_id self) r
                      ++ teardown_events ++ [ExitStartedContext]
             end).
Proof.
  intros Hv H. unfold run_start, start. rewrite Hv. cbn [negb].
  assert (E : forall m0 : machine,
             (if negb (is_process_group_leader w) then emit Setsid else ret tt) m0
             = (Ok tt, emits (if is_process_group_leader w then [] else [Setsid]) m0)).
  { intro m0. destruct (is_process_group_leader w); cbn [negb]; run_monad;
      [now rewrite emits_nil|reflexivity]. }
  unfold bind at 1. rewrite E. run_monad.
  unfold prologue, collection_of in *. rewrite <- app_assoc in H. cbn [app] in H.
  rewrite (guarded_after_loop _ _ _ _ _ H).
  destruct r as [[]|e|]; run_monad; flat_trace; reflexivity.
Qed.

(** C4. However the loop of a validated worker ends (it was left, normally
    or after a protocol error, or an exception came out of it), [start]
    flushes the remaining scopes, sets the stop event and joins the heartbeat
    thread, in this order and as the last things it does before it leaves
    the started context; [start] ends the way the loop ended, so an
    exception out of the loop, an interruption of the running test among
    them, is raised again after the teardown. *)
Theorem teardown_on_every_exit (self : Worker) (w : world) (r : res unit) (m1 : machine) :
  validate_collection_reply w = true ->
  loop self (get_test_replies w) false
    (emits (prologue self w ++ [ThreadStart; EnterStartedContext]) (boot w)) = (r, m1) ->
  r <> Hang ->
  run_start_ self w
    = (r, trace m1
            ++ on_exit INTERRUPTION_EXCEPTIONS (client_id self) r
            ++ [FlushRemainingScopes; StopEventSet; ThreadJoin]
            ++ [ExitStartedContext])
  /\ (forall e, r = Exc e -> isinstance e INTERRUPTION_EXCEPTIONS = true ->
        on_exit INTERRUPTION_EXCEPTIONS (client_id self) r = [LogError interrupted_msg])
  /\ (forall e, r = Exc e ->
        count is_disconnect (on_exit INTERRUPTION_EXCEPTIONS (client_id self) r) = 0
        /\ count is_mark_complete
             (on_exit INTERRUPTION_EXCEPTIONS (client_id self) r) = 0).
Proof.
  intros Hv H Hr. split; [|split].
  - rewrite (start_validated self w r m1 Hv H).
    destruct r as [[]|e|]; [reflexivity|reflexivity|contradiction].
  - intros e -> Hi. cbn [on_exit]. now rewrite Hi.
  - intros e ->. cbn [on_exit].
    destruct (isinstance e INTERRUPTION_EXCEPTIONS); split; reflexivity.
Qed.

Lemma start_shape (self : Worker) (w : world) :
  validate_collection_reply w = true ->
  exists (r : res unit) (tr : list event),
    loop_run self r tr
    /\ run_start_ self w
       = (r, (prologue self w ++ [ThreadStart; EnterStartedContext])
               ++ tr ++ epilogue INTERRUPTION_EXCEPTIONS (client_id self) r).
Proof.
  intro Hv.
  destruct (loop self (get_test_replies w) false
              (emits (prologue self w ++ [ThreadStart; EnterStartedContext]) (boot w)))
    as [r m1] eqn:HL.
  exists r. destruct (loop_runs _ _ _ _ _ HL) as (tr & Ht & Hr).
  exists tr. split; [assumption|].
  rewrite (start_validated self w r m1 Hv HL), Ht.
  cbn [emits trace boot app]. rewrite <- !app_assoc. reflexivity.
Qed.

(** *** The record logged on a protocol error *)

Lemma protocol_error_msg_not_interrupted (cid : string) :
  interrupted_msg <> protocol_error_msg cid.
Proof. unfold interrupted_msg, protocol_error_msg. cbn. discriminate. Qed.

Lemma split_unique {A : Type} (x : A) (xs ys pre post : list A) :
  ~ In x xs -> ~ In x ys ->
  xs ++ x :: ys = pre ++ x :: post ->
  pre = xs /\ post = ys.
Proof.
  revert pre. induction xs as [|a xs IH]; intros pre Hx Hy E.
  - destruct pre as [|b pre]; cbn in E.
    + injection E as ->. now split.
    + injection E as <- ->. exfalso. apply Hy, in_or_app. right. now left.
  - destruct pre as [|b pre]; cbn in E.
    + injection E as -> _. exfalso. apply Hx. now left.
    + injection E as <- E. destruct (IH pre) as (-> & ->); auto.
      intro. apply Hx. now right.
Qed.

Lemma not_in_dispatched (self : Worker) (test_index : pyval) (t : test) (s : status) :
  ~ In (LogError (protocol_error_msg (client_id self))) (dispatched self test_index t s).
Proof. unfold dispatched. cbn. intuition discriminate. Qed.

Lemma not_in_wait_round (self : Worker) :
  ~ In (LogError (protocol_error_msg (client_id self))) (wait_round (client_id self)).
Proof. unfold wait_round. cbn. intuition discriminate. Qed.

Lemma not_in_prologue (self : Worker) (w : world) :
  ~ In (LogError (protocol_error_msg (client_id self)))
      (prologue self w ++ [ThreadStart; EnterStartedContext]).
Proof.
  unfold prologue. destruct (is_process_group_leader w); cbn; intuition discriminate.
Qed.

Lemma not_in_epilogue (self : Worker) (r : res unit) :
  ~ In (LogError (protocol_error_msg (client_id self)))
      (epilogue INTERRUPTION_EXCEPTIONS (client_id self) r).
Proof.
  unfold epilogue, on_exit, teardown_events.
  destruct r as [[]|e|]; [| destruct (isinstance e INTERRUPTION_EXCEPTIONS) |];
    cbn; intuition discriminate.
Qed.

(** In a run of the loop the record is logged at most once, as the last
    thing of a loop that was left normally. *)
Lemma loop_run_protocol_error_record (self : Worker) (r : res unit) (tr : list event) :
  loop_run self r tr ->
  In (LogError (protocol_error_msg (client_id self))) tr ->
  r = Ok tt
  /\ exists tr0, tr = tr0 ++ [LogError (protocol_error_msg (client_id self))]
               /\ ~ In (LogError (protocol_error_msg (client_id self))) tr0.
Proof.
  induction 1 as [r tr L | r tr L IH | r test_index t s tr G L IH]; intro Hin.
  - destruct L.
    + split; [reflexivity|]. exists [Rpc (get_test (client_id self))].
      split; [reflexivity|]. cbn. intuition discriminate.
    + exfalso. cbn in Hin. intuition discriminate.
    + exfalso. cbn in Hin. intuition discriminate.
    + split; [reflexivity|].
      exists (Rpc (get_test (client_id self)) :: dispatched self test_index t s).
      split; [reflexivity|]. unfold dispatched. cbn. intuition discriminate.
    + exfalso. cbn in Hin. intuition discriminate.
    + exfalso. cbn in Hin. intuition discriminate.
    + exfalso. unfold dispatched in Hin. cbn in Hin. intuition discriminate.
  - apply in_app_or in Hin. destruct Hin as [Hin|Hin];
      [exfalso; now apply (not_in_wait_round self)|].
    destruct (IH Hin) as (-> & tr0 & -> & Hn). split; [reflexivity|].
    exists (wait_round (client_id self) ++ tr0). split; [now rewrite app_assoc|].
    intro K. apply in_app_or in K. destruct K as [K|K]; [|contradiction].
    now apply (not_in_wait_round self).
  - destruct Hin as [Hin|Hin]; [discriminate|].
    apply in_app_or in Hin. destruct Hin as [Hin|Hin];
      [exfalso; now apply (not_in_dispatched self test_index t s)|].
    destruct (IH Hin) as (-> & tr0 & -> & Hn). split; [reflexivity|].
    exists (Rpc (get_test (client_id self)) :: dispatched self test_index t s ++ tr0).
    split; [cbn [app]; now rewrite app_assoc|].
    intros [K|K]; [discriminate|]. apply in_app_or in K. destruct K as [K|K];
      [now apply (not_in_dispatched self test_index t s)|contradiction].
Qed.

(** The loop itself neither disconnects nor marks the session complete. *)
Lemma loop_run_leaves_session_open (self : Worker) (r : res unit) (tr : list event) :
  loop_run self r tr ->
  count is_disconnect tr = 0 /\ count is_mark_complete tr = 0.
Proof.
  induction 1 as [r tr L | r tr L (IH1 & IH2) | r test_index t s tr G L (IH1 & IH2)].
  - destruct L; split; reflexivity.
  - rewrite !count_app, IH1, IH2. split; reflexivity.
  - change (Rpc (get_test (client_id self)) :: dispatched self test_index t s ++ tr)
      with ((Rpc (get_test (client_id self)) :: dispatched self test_index t s) ++ tr).
    rewrite !count_app, IH1, IH2. split; reflexivity.
Qed.

(** C1 (as amended). PROTOCOL_ERROR from [get_test] or from [finished_test]
    makes the worker log the protocol-error record and leave the loop
    normally.  In every run of a validated worker, what follows that record
    is: the session is marked complete, [disconnect] is called, the remaining
    scopes are flushed, the stop event is set, the heartbeat thread is
    joined and the started context is left; [start] returns normally, having
    called [disconnect] once and marked the session complete once. *)
Theorem protocol_error_exit_completes_session (self : Worker) (w : world)
    (r : res unit) (tr pre post : list event) :
  PROTOCOL_ERROR <> WAITING_FOR_CLIENTS ->
  validate_collection_reply w = true ->
  run_start_ self w = (r, tr) ->
  tr = pre ++ LogError (protocol_error_msg (client_id self)) :: post ->
  r = Ok tt
  /\ post = [MarkComplete; Rpc (disconnect (client_id self));
             FlushRemainingScopes; StopEventSet; ThreadJoin; ExitStartedContext]
  /\ count is_disconnect tr = 1
  /\ count is_mark_complete tr = 1
  /\ (forall rest m,
        loop self (Returns PROTOCOL_ERROR :: rest) false m
        = (Ok tt, emits [Rpc (get_test (client_id self));
                         LogError (protocol_error_msg (client_id self))] m))
  /\ (forall test_index t s runs acks rest m,
        ~ In test_index the_sentinels ->
        py_getitem (collected_tests self) test_index = inr t ->
        run_tests_outcomes m = inr s :: runs ->
        finished_test_replies m = Returns PROTOCOL_ERROR :: acks ->
        loop self (Returns test_index :: rest) false m
        = (Ok tt, {| trace := trace m ++ Rpc (get_test (client_id self))
                                :: dispatched self test_index t s
                                ++ [LogError (protocol_error_msg (client_id self))];
                     finished_test_replies := acks;
                     run_tests_outcomes := runs |})).
Proof.
  intros Hpw Hv Hrun Hsplit.
  destruct (start_shape self w Hv) as (r0 & body & Hbody & Hshape).
  rewrite Hshape in Hrun. injection Hrun as -> <-.
  assert (Hin : In (LogError (protocol_error_msg (client_id self))) body).
  { assert (K : In (LogError (protocol_error_msg (client_id self)))
                  (pre ++ LogError (protocol_error_msg (client_id self)) :: post))
      by (apply in_or_app; right; now left).
    rewrite <- Hsplit in K. apply in_app_or in K. destruct K as [K|K];
      [exfalso; now apply (not_in_prologue self w)|].
    apply in_app_or in K. destruct K as [K|K]; [assumption|].
    exfalso. now apply (not_in_epilogue self r). }
  destruct (loop_run_protocol_error_record self r body Hbody Hin)
    as (-> & body0 & -> & Hfresh).
  destruct (loop_run_leaves_session_open self _ _ Hbody) as (Cd & Cm).
  rewrite count_app in Cd, Cm.
  assert (Hpost : post = epilogue INTERRUPTION_EXCEPTIONS (client_id self) (Ok tt)).
  { assert (E : ((prologue self w ++ [ThreadStart; EnterStartedContext]) ++ body0)
                  ++ LogError (protocol_error_msg (client_id self))
                  :: epilogue INTERRUPTION_EXCEPTIONS (client_id self) (Ok tt)
                = pre ++ LogError (protocol_error_msg (client_id self)) :: post)
      by (rewrite <- Hsplit, <- !app_assoc; reflexivity).
    eapply split_unique; [| |exact E].
    - intro K. apply in_app_or in K. destruct K as [K|K]; [|contradiction].
      now apply (not_in_prologue self w).
    - apply (not_in_epilogue self (Ok tt)). }
  split; [reflexivity|]. split; [exact Hpost|].
  split; [|split; [|split]].
  - rewrite !count_app. unfold prologue.
    destruct (is_process_group_leader w); cbn in *; lia.
  - rewrite !count_app. unfold prologue.
    destruct (is_process_group_leader w); cbn in *; lia.
  - intros rest m. now apply loop_protocol_error.
  - intros test_index t s runs acks rest m Hs Hi Hr Ha.
    rewrite (loop_dispatch_acknowledged self test_index PROTOCOL_ERROR t s runs acks)
      by assumption.
    rewrite py_eqb_refl. apply loop_stopped.
Qed.

(** *** One test in flight *)








(** *** The five outcomes of [get_test] *)


Lemma py_getitem_nth {A : Type} (l : list A) (i : nat) (x : A) :
  nth_error l i = Some x ->
  py_getitem l (PyInt (Z.of_nat i)) = inr x.
Proof.
  intro H. assert (Hlt : (i < List.length l)%nat) by (apply nth_error_Some; congruence).
  unfold py_getitem.
  destruct (Z.ltb_spec (Z.of_nat i) 0) as [Hneg|_]; [lia|].
  destruct (Z.ltb_spec (Z.of_nat i) 0) as [Hneg|_]; [lia|].
  destruct (Z.leb_spec (Z.of_nat (List.length l)) (Z.of_nat i)) as [Hge|_]; [lia|].
  cbn [orb]. now rewrite Nat2Z.id, H.
Qed.





(** *** The warning hook *)

Variable pickle_dumps : warning_record -> exn + string.
Variable report_warning_raises : string -> option exn.

(** What the handler does not name is not caught. *)
Lemma other_pickle_errors_propagate (self : Worker) (warning : warning_record)
    (e : exn) (m : machine) :
  pickle_dumps warning = inl e ->
  isinstance e [PicklingError; TypeError] = false ->
  warning_added pickle_dumps report_warning_raises self warning m = (Exc e, m).
Proof.
  intros Hp He. unfold warning_added. rewrite Hp, He. reflexivity.
Qed.

(** C6 (as amended). A warning that [pickle.dumps] refuses with
    [PicklingError] or with [TypeError] is logged with its message, file and
    line and dropped: the hook makes no call of [report_warning] and returns
    normally.  A refusal with any other exception is not caught: nothing is
    logged, no call is made, and the exception leaves [warning_added]. *)
Theorem serialization_failure_is_logged_when_caught (self : Worker)
    (warning : warning_record) (e : exn) (m : machine) :
  pickle_dumps warning = inl e ->
  (e = PicklingError \/ e = TypeError ->
   warning_added pickle_dumps report_warning_raises self warning m
   = (Ok tt, emits [LogError (pickle_failed_msg (message warning) (filename warning)
                                (lineno warning))] m))
  /\ (e <> PicklingError -> e <> TypeError ->
      warning_added pickle_dumps report_warning_raises self warning m = (Exc e, m))
  /\ pickle_failed_msg (message warning) (filename warning) (lineno warning)
     = ("Failed to pickle warning. Message: " ++ message warning
          ++ ", File: " ++ filename warning
          ++ ", Line: " ++ str_of_Z (lineno warning))%string.
Proof.
  intro Hp. split; [|split; [|reflexivity]].
  - intro He. unfold warning_added, log_pickle_failure. rewrite Hp.
    destruct He as [-> | ->]; cbn [isinstance existsb exn_eqb orb getattr_message
                                   getattr_filename getattr_lineno];
      run_monad; reflexivity.
  - intros H1 H2. apply other_pickle_errors_propagate; [assumption|].
    destruct e; try reflexivity; contradiction.
Qed.

(** C10. When the warning pickles and [report_warning] raises [TypeError],
    the handler runs with the name [warning] bound to the bytes: reading
    [.message] raises [AttributeError], nothing is logged, and the exception
    leaves [warning_added]. *)
Theorem report_warning_type_error_escapes (self : Worker) (warning : warning_record)
    (pickled : string) (m : machine) :
  pickle_dumps warning = inr pickled ->
  report_warning_raises pickled = Some TypeError ->
  warning_added pickle_dumps report_warning_raises self warning m
    = log_pickle_failure (BytesObj pickled)
        (emits [Rpc (report_warning (client_id self) pickled)] m)
  /\ getattr_message (BytesObj pickled) = inl AttributeError
  /\ warning_added pickle_dumps report_warning_raises self warning m
     = (Exc AttributeError, emits [Rpc (report_warning (client_id self) pickled)] m)
  /\ count is_log_error [Rpc (report_warning (client_id self) pickled)] = 0.
Proof.
  intros Hp Hr. unfold warning_added, call_report_warning, log_pickle_failure.
  rewrite Hp. run_monad. rewrite Hr. run_monad.
  cbn [isinstance existsb exn_eqb orb getattr_message]. run_monad.
  repeat split.
Qed.

End Facts.

(** * Runs of the sample worker *)


Lemma sample_index_not_sentinel (z : Z) :
  ~ In (PyInt z)
      (sentinels Sample.waiting Sample.protocol_error Sample.finished Sample.terminate).
Proof. cbn. intuition discriminate. Qed.

(** C1, the claim as it stands, on a run whose first reply of [get_test] is
    PROTOCOL_ERROR and on a run whose first acknowledgement is: both runs
    mark the session complete and call [disconnect]. *)
Lemma protocol_error_exit_still_disconnects :
  Sample.start_in (Sample.world_of true [Returns Sample.protocol_error] [] [])
    = (Ok tt,
       [RegisterHook; Rpc (connect "w1");
        Rpc (validate_collection "w1"
               [("test_00000.py", "test_a", "0"); ("test_00000.py", "test_b", "0");
                ("test_00001.py", "test_c", "0")]);
        ThreadStart; EnterStartedContext;
        Rpc (get_test "w1");
        LogError "Worker_id w1 recieved protocol error message, terminating";
        MarkComplete; Rpc (disconnect "w1");
        FlushRemainingScopes; StopEventSet; ThreadJoin; ExitStartedContext])
  /\ ~ (count is_disconnect
          (snd (Sample.start_in
                  (Sample.world_of true [Returns Sample.protocol_error] [] []))) = 0)
  /\ ~ (count is_mark_complete
          (snd (Sample.start_in
                  (Sample.world_of true [Returns Sample.protocol_error] [] []))) = 0)
  /\ ~ (count is_disconnect
          (snd (Sample.start_in
                  (Sample.world_of true [Returns (PyInt 0)]
                     [Returns Sample.protocol_error] [inr Success]))) = 0)
  /\ ~ (count is_mark_complete
          (snd (Sample.start_in
                  (Sample.world_of true [Returns (PyInt 0)]
                     [Returns Sample.protocol_error] [inr Success]))) = 0).
Proof. repeat split; vm_compute; discriminate. Qed.

Lemma protocol_error_exit_completes_session_sample :
  count is_disconnect
    (snd (Sample.start_in (Sample.world_of true [Returns Sample.protocol_error] [] []))) = 1
  /\ count is_mark_complete
       (snd (Sample.start_in (Sample.world_of true [Returns Sample.protocol_error] [] [])))
     = 1.
Proof.
  assert (Hpw : Sample.protocol_error <> Sample.waiting) by discriminate.
  destruct (protocol_error_exit_completes_session
              Sample.waiting Sample.protocol_error Sample.finished Sample.terminate
              Sample.interruptions Sample.worker
              (Sample.world_of true [Returns Sample.protocol_error] [] [])
              (Ok tt)
              (snd (Sample.start_in
                      (Sample.world_of true [Returns Sample.protocol_error] [] [])))
              [RegisterHook; Rpc (connect "w1");
               Rpc (validate_collection "w1"
                      [("test_00000.py", "test_a", "0"); ("test_00000.py", "test_b", "0");
                       ("test_00001.py", "test_c", "0")]);
               ThreadStart; EnterStartedContext; Rpc (get_test "w1")]
              [MarkComplete; Rpc (disconnect "w1");
               FlushRemainingScopes; StopEventSet; ThreadJoin; ExitStartedContext]
              Hpw eq_refl eq_refl eq_refl)
    as (_ & _ & Hd & Hm & _).
  split; assumption.
Defined.

(** C2 on the sample worker. *)
Lemma collection_mismatch_ends_worker_sample :
  Sample.start_in (Sample.world_of false [Returns (PyInt 0)] [] [])
  = (Ok tt,
     [RegisterHook; Rpc (connect "w1");
      Rpc (validate_collection "w1"
             [("test_00000.py", "test_a", "0"); ("test_00000.py", "test_b", "0");
              ("test_00001.py", "test_c", "0")]);
      LogError "Collections of worker id w1 and master don't match, worker terminates";
      Rpc (disconnect "w1")]).
Proof.
  exact (proj1 (collection_mismatch_ends_worker
                  Sample.waiting Sample.protocol_error Sample.finished Sample.terminate
                  Sample.interruptions Sample.worker
                  (Sample.world_of false [Returns (PyInt 0)] [] []) eq_refl)).
Defined.

(** C3 on the sample worker: success, then failure, then no more tests. *)
Lemma two_tests_then_finished_sample :
  submitted
    (snd (Sample.start_in
            (Sample.world_of true
               [Returns (PyInt 0); Returns (PyInt 1); Returns Sample.finished]
               [Returns Sample.ok; Returns Sample.ok]
               [inr Success; inr Failure])))
  = [{| result_test := Sample.t0; result_status := Success |};
     {| result_test := Sample.t1; result_status := Failure |}].
Proof.
  destruct (two_tests_then_finished
              Sample.waiting Sample.protocol_error Sample.finished Sample.terminate
              Sample.interruptions Sample.worker
              (Sample.world_of true
                 [Returns (PyInt 0); Returns (PyInt 1); Returns Sample.finished]
                 [Returns Sample.ok; Returns Sample.ok]
                 [inr Success; inr Failure])
              Sample.t0 Sample.t1 Sample.t2 Success Failure Sample.ok Sample.ok [] [] []
              eq_refl eq_refl eq_refl eq_refl eq_refl
              ltac:(discriminate) ltac:(discriminate)
              (sample_index_not_sentinel 0) (sample_index_not_sentinel 1)
              ltac:(discriminate) ltac:(discriminate))
    as (Hrun & Hsub & _).
  unfold Sample.start_in. rewrite Hrun. exact Hsub.
Defined.

(** C4 on the sample worker: the first test is interrupted. *)
Lemma teardown_on_every_exit_sample :
  Sample.start_in (Sample.world_of true [Returns (PyInt 0)] [] [inl KeyboardInterrupt])
  = (Exc KeyboardInterrupt,
     [RegisterHook; Rpc (connect "w1");
      Rpc (validate_collection "w1"
             [("test_00000.py", "test_a", "0"); ("test_00000.py", "test_b", "0");
              ("test_00001.py", "test_c", "0")]);
      ThreadStart; EnterStartedContext;
      Rpc (get_test "w1"); SetCurrentParallelTestIndex (PyInt 0); RunTests Sample.t0;
      LogError "Worker interrupted while executing test";
      FlushRemainingScopes; StopEventSet; ThreadJoin; ExitStartedContext]).
Proof.
  exact (proj1 (teardown_on_every_exit
                  Sample.waiting Sample.protocol_error Sample.finished Sample.terminate
                  Sample.interruptions Sample.worker
                  (Sample.world_of true [Returns (PyInt 0)] [] [inl KeyboardInterrupt])
                  (Exc KeyboardInterrupt)
                  {| trace :=
                       [RegisterHook; Rpc (connect "w1");
                        Rpc (validate_collection "w1"
                               [("test_00000.py", "test_a", "0");
                                ("test_00000.py", "test_b", "0");
                                ("test_00001.py", "test_c", "0")]);
                        ThreadStart; EnterStartedContext;
                        Rpc (get_test "w1"); SetCurrentParallelTestIndex (PyInt 0);
                        RunTests Sample.t0];
                     finished_test_replies := [];
                     run_tests_outcomes := [] |}
                  eq_refl eq_refl ltac:(discriminate))).
Defined.


(** C7 on the sample worker: told to wait twice, then handed index 0. *)
Lemma waiting_sleeps_then_asks_again_sample :
  run_loop Sample.waiting Sample.protocol_error Sample.finished Sample.terminate
    Sample.worker
    [Returns Sample.waiting; Returns Sample.waiting; Returns (PyInt 0);
     Returns Sample.finished] false Sample.ready
  = (Ok tt,
     {| trace :=
          [Rpc (get_test "w1");
           LogDebug "Worker_id w1 recieved waiting_for_clients, sleeping"; Sleep 50;
           Rpc (get_test "w1");
           LogDebug "Worker_id w1 recieved waiting_for_clients, sleeping"; Sleep 50;
           Rpc (get_test "w1"); SetCurrentParallelTestIndex (PyInt 0);
           RunTests Sample.t0;
           LogDebug "Client w1 finished test, sending results";
           Rpc (finished_test "w1"
                  {| result_test := Sample.t0; result_status := Success |});
           Rpc (get_test "w1");
           LogDebug "Got FINISHED_ALL_TESTS, Client w1 disconnecting"];
        finished_test_replies := [];
        run_tests_outcomes := [] |}).
Proof.
  destruct (waiting_sleeps_then_asks_again
              Sample.waiting Sample.protocol_error Sample.finished Sample.terminate
              Sample.worker 2 (PyInt 0) [Returns Sample.finished] Sample.ready
              (sample_index_not_sentinel 0))
    as (_ & _ & _ & _ & _ & _ & H).
  rewrite H. reflexivity.
Defined.

(** C8 on the sample worker: the result of test 1 is answered with the
    protocol error; the index that [get_test] would have handed out next is
    never asked for. *)
Lemma protocol_error_ack_ends_loop_sample :
  run_loop Sample.waiting Sample.protocol_error Sample.finished Sample.terminate
    Sample.worker [Returns (PyInt 1); Returns (PyInt 2)] false Sample.rejecting
  = (Ok tt,
     {| trace :=
          [Rpc (get_test "w1"); SetCurrentParallelTestIndex (PyInt 1);
           RunTests Sample.t1;
           LogDebug "Client w1 finished test, sending results";
           Rpc (finished_test "w1"
                  {| result_test := Sample.t1; result_status := Failure |});
           LogError "Worker_id w1 recieved protocol error message, terminating"];
        finished_test_replies := [];
        run_tests_outcomes := [] |}).
Proof.
  exact (proj1 (protocol_error_ack_ends_loop
                  Sample.waiting Sample.protocol_error Sample.finished Sample.terminate
                  Sample.worker (PyInt 1) Sample.t1 Failure [] [] [Returns (PyInt 2)]
                  Sample.rejecting (sample_index_not_sentinel 1)
                  eq_refl eq_refl eq_refl)).
Defined.


(** C6, the claim as it stands, on a warning whose payload [pickle.dumps]
    refuses with [AttributeError], as it does for an object of a local class:
    the handler does not catch it, nothing is logged and the hook raises. *)
Lemma serialization_failure_can_escape :
  warning_added WarningSample.local_object_pickle Sample.transport_accepts Sample.worker
    Sample.a_warning Sample.idle
  = (Exc AttributeError, Sample.idle)
  /\ fst (warning_added WarningSample.local_object_pickle Sample.transport_accepts
            Sample.worker Sample.a_warning Sample.idle) <> Ok tt
  /\ count is_log_error
       (trace (snd (warning_added WarningSample.local_object_pickle
                      Sample.transport_accepts Sample.worker Sample.a_warning
                      Sample.idle))) = 0.
Proof. repeat split. cbn. discriminate. Qed.

(** C6 as amended, on a warning that does not pickle. *)
Lemma serialization_failure_is_logged_when_caught_sample :
  warning_added Sample.refusing_pickle Sample.transport_accepts Sample.worker
    Sample.a_warning Sample.idle
  = (Ok tt,
     {| trace := [LogError "Failed to pickle warning. Message: deprecated, File: test_00000.py, Line: 12"];
        finished_test_replies := [];
        run_tests_outcomes := [] |}).
Proof.
  exact (proj1 (serialization_failure_is_logged_when_caught
                  Sample.refusing_pickle Sample.transport_accepts Sample.worker
                  Sample.a_warning PicklingError Sample.idle eq_refl)
           (or_introl eq_refl)).
Defined.

(** C10 on a warning that pickles and a transport that raises [TypeError]. *)
Lemma report_warning_type_error_escapes_sample :
  warning_added Sample.pickling Sample.transport_rejects Sample.worker
    Sample.a_warning Sample.idle
  = (Exc AttributeError,
     {| trace := [Rpc (report_warning "w1" "pickled")];
        finished_test_replies := [];
        run_tests_outcomes := [] |}).
Proof.
  destruct (report_warning_type_error_escapes
              Sample.pickling Sample.transport_rejects Sample.worker
              Sample.a_warning "pickled" Sample.idle eq_refl eq_refl)
    as (_ & _ & H & _).
  exact H.
Defined.

(** * Further properties of the worker *)

(** ** The heartbeat *)

(** X1. While the stop event is seen unset and the pings return, every round
    of [keep_alive] makes one ping and one wait of one second; the round in
    which the event is seen set makes no ping and ends the thread.  An event
    set from the beginning means no ping at all. *)
Theorem keep_alive_pings_until_stopped (self : Worker) (n : nat)
    (later : list bool) (pings : list (option exn)) :
  (n <= List.length pings)%nat ->
  Forall (fun o => o = None) (firstn n pings) ->
  keep_alive self (repeat false n ++ true :: later) pings = (Ok tt, heartbeats n self)
  /\ List.length (filter is_keep_alive (heartbeats n self)) = n.
Proof.
  revert pings. induction n as [|n IH]; intros pings Hlen Hall.
  - split; reflexivity.
  - destruct pings as [|o pings]; [cbn in Hlen; lia|].
    cbn [firstn] in Hall. inversion Hall as [|? ? Ho Hrest]; subst.
    cbn [List.length] in Hlen.
    destruct (IH pings ltac:(lia) Hrest) as (IHrun & IHcount).
    split.
    + cbn [repeat app keep_alive heartbeats]. now rewrite IHrun.
    + cbn [heartbeats filter is_keep_alive List.length]. now rewrite IHcount.
Qed.

(** X2. A ping that raises ends [keep_alive] with that exception: after [n]
    good rounds the failing ping is the last thing the thread does; it does
    not wait and does not ping again, whatever the stop event says later. *)
Theorem keep_alive_dies_on_failed_ping (self : Worker) (n : nat) (e : exn)
    (later : list bool) (pings : list (option exn)) :
  keep_alive self (repeat false n ++ false :: later) (repeat None n ++ Some e :: pings)
  = (Exc e, heartbeats n self ++ [KeepAlive (server_addr self) (client_id self)]).
Proof.
  induction n as [|n IH]; [reflexivity|].
  cbn [repeat app keep_alive heartbeats]. now rewrite IH.
Qed.

Section MoreFacts.

Variables WAITING_FOR_CLIENTS PROTOCOL_ERROR FINISHED_ALL_TESTS SHOULD_TERMINATE : pyval.
Variable INTERRUPTION_EXCEPTIONS : list exn.

Local Abbreviation loop := (run_loop WAITING_FOR_CLIENTS PROTOCOL_ERROR
                          FINISHED_ALL_TESTS SHOULD_TERMINATE).
Local Abbreviation run_start_ := (run_start WAITING_FOR_CLIENTS PROTOCOL_ERROR
                                FINISHED_ALL_TESTS SHOULD_TERMINATE INTERRUPTION_EXCEPTIONS).
Local Abbreviation start_shape_ := (start_shape WAITING_FOR_CLIENTS PROTOCOL_ERROR
                                  FINISHED_ALL_TESTS SHOULD_TERMINATE INTERRUPTION_EXCEPTIONS).
Local Abbreviation the_sentinels := (sentinels WAITING_FOR_CLIENTS PROTOCOL_ERROR
                                   FINISHED_ALL_TESTS SHOULD_TERMINATE).

(** ** What [start] does once, and when *)

Lemma run_start_mismatch (self : Worker) (w : world) :
  validate_collection_reply w = false ->
  run_start_ self w
  = (Ok tt, prologue self w ++ [LogError (collection_mismatch_msg (client_id self));
                                Rpc (disconnect (client_id self))]).
Proof.
  intro Hv. unfold run_start, start, prologue, collection_of. rewrite Hv. cbn [negb].
  destruct (is_process_group_leader w); cbn [negb]; run_monad; flat_trace; reflexivity.
Qed.

Lemma prologue_counts (self : Worker) (w : world) :
  count is_disconnect (prologue self w) = 0
  /\ count is_mark_complete (prologue self w) = 0
  /\ count is_thread_start (prologue self w) = 0
  /\ count is_thread_join (prologue self w) = 0
  /\ count is_stop_event_set (prologue self w) = 0.
Proof. unfold prologue. destruct (is_process_group_leader w); repeat split. Qed.

Lemma loop_run_no_thread_events (self : Worker) (r : res unit) (tr : list event) :
  loop_run self r tr ->
  count is_thread_start tr = 0
  /\ count is_thread_join tr = 0
  /\ count is_stop_event_set tr = 0.
Proof.
  induction 1 as [r tr L | r tr L (I1 & I2 & I3)
                 | r test_index t s tr G L (I1 & I2 & I3)].
  - destruct L; repeat split.
  - rewrite !count_app, I1, I2, I3. repeat split.
  - change (Rpc (get_test (client_id self)) :: dispatched self test_index t s ++ tr)
      with ((Rpc (get_test (client_id self)) :: dispatched self test_index t s) ++ tr).
    rewrite !count_app, I1, I2, I3. repeat split.
Qed.

(** Where the model stops short: its calls of [disconnect] and
    [mark_complete] always return, so in the model [start] ends normally
    exactly when both were made. *)
Lemma session_end_counts (self : Worker) (w : world) :
  count is_disconnect (snd (run_start_ self w))
    = match fst (run_start_ self w) with Ok _ => 1 | _ => 0 end
  /\ count is_mark_complete (snd (run_start_ self w))
     = match fst (run_start_ self w) with
       | Ok _ => if validate_collection_reply w then 1 else 0
       | _ => 0
       end.
Proof.
  destruct (prologue_counts self w) as (Pd & Pm & _).
  destruct (validate_collection_reply w) eqn:Hv.
  - destruct (start_shape_ self w Hv) as (r & body & Hbody & Hshape).
    rewrite Hshape. cbn [fst snd].
    destruct (loop_run_leaves_session_open self r body Hbody) as (Bd & Bm).
    rewrite !count_app, Pd, Pm, Bd, Bm. unfold epilogue, on_exit.
    destruct r as [[]|e|]; [| destruct (isinstance e INTERRUPTION_EXCEPTIONS) |];
      split; reflexivity.
  - rewrite (run_start_mismatch self w Hv). cbn [fst snd].
    rewrite !count_app, Pd, Pm. split; reflexivity.
Qed.

(** X3. In every run of [start], [disconnect] is called at most once and
    the session is marked complete at most once.  When [start] returns
    normally, [disconnect] was called exactly once, and the session was
    marked complete exactly once if the collection was validated and not at
    all if it was not.  When an exception comes out of the loop of a
    validated worker, neither call is made. *)
Theorem disconnect_at_most_once (self : Worker) (w : world) :
  count is_disconnect (snd (run_start_ self w)) <= 1
  /\ count is_mark_complete (snd (run_start_ self w)) <= 1
  /\ (fst (run_start_ self w) = Ok tt ->
      count is_disconnect (snd (run_start_ self w)) = 1
      /\ count is_mark_complete (snd (run_start_ self w))
         = if validate_collection_reply w then 1 else 0)
  /\ (forall e m1,
        validate_collection_reply w = true ->
        loop self (get_test_replies w) false
          (emits (prologue self w ++ [ThreadStart; EnterStartedContext]) (boot w))
        = (Exc e, m1) ->
        count is_disconnect (snd (run_start_ self w)) = 0
        /\ count is_mark_complete (snd (run_start_ self w)) = 0).
Proof.
  destruct (session_end_counts self w) as (Hd & Hm).
  split; [|split; [|split]].
  - rewrite Hd. destruct (fst (run_start_ self w)); lia.
  - rewrite Hm. destruct (fst (run_start_ self w)), (validate_collection_reply w); lia.
  - intro E. rewrite Hd, Hm, E. split; reflexivity.
  - intros e m1 Hv Hloop. rewrite Hd, Hm.
    rewrite (start_validated WAITING_FOR_CLIENTS PROTOCOL_ERROR FINISHED_ALL_TESTS
               SHOULD_TERMINATE INTERRUPTION_EXCEPTIONS self w (Exc e) m1 Hv Hloop).
    split; reflexivity.
Qed.

(** X4. The heartbeat thread is started once when the collection is
    validated and never otherwise; unless [start] never ends, a started
    thread is joined once, after the stop event was set once; a worker that
    was not validated sets no event and joins no thread. *)
Theorem heartbeat_started_and_joined (self : Worker) (w : world) :
  count is_thread_start (snd (run_start_ self w))
    = (if validate_collection_reply w then 1 else 0)
  /\ count is_thread_join (snd (run_start_ self w))
     = (if validate_collection_reply w
        then match fst (run_start_ self w) with Hang => 0 | _ => 1 end
        else 0)
  /\ count is_stop_event_set (snd (run_start_ self w))
     = count is_thread_join (snd (run_start_ self w)).
Proof.
  destruct (prologue_counts self w) as (_ & _ & Ps & Pj & Pe).
  destruct (validate_collection_reply w) eqn:Hv.
  - destruct (start_shape_ self w Hv) as (r & body & Hbody & Hshape).
    rewrite Hshape. cbn [fst snd].
    destruct (loop_run_no_thread_events self r body Hbody) as (Bs & Bj & Be).
    rewrite !count_app, Ps, Pj, Pe, Bs, Bj, Be. unfold epilogue, on_exit.
    destruct r as [[]|e|]; [| destruct (isinstance e INTERRUPTION_EXCEPTIONS) |];
      repeat split.
  - rewrite (run_start_mismatch self w Hv). cbn [fst snd].
    rewrite !count_app, Ps, Pj, Pe. repeat split.
Qed.

(** ** Which tests are run, and which results are submitted *)

Lemma py_getitem_In {A : Type} (l : list A) (i : pyval) (x : A) :
  py_getitem l i = inr x -> In x l.
Proof.
  unfold py_getitem. destruct i as [z| |]; try discriminate.
  destruct (_ || _)%bool; [discriminate|].
  destruct (nth_error l _) as [y|] eqn:E; [|discriminate].
  intro H. injection H as <-. eapply nth_error_In, E.
Qed.

Lemma ran_app (a b : list event) : ran (a ++ b) = ran a ++ ran b.
Proof.
  induction a as [|e a IH]; [reflexivity|].
  destruct e as [[]| | | | | | | | | | | | | |]; cbn [app ran]; now rewrite ?IH.
Qed.

Lemma submitted_app (a b : list event) : submitted (a ++ b) = submitted a ++ submitted b.
Proof.
  induction a as [|e a IH]; [reflexivity|].
  destruct e as [[]| | | | | | | | | | | | | |]; cbn [app submitted]; now rewrite ?IH.
Qed.

Lemma loop_run_tests (self : Worker) (r : res unit) (tr : list event) :
  loop_run self r tr ->
  Forall (fun t => In t (collected_tests self)) (ran tr)
  /\ (r = Ok tt -> map result_test (submitted tr) = ran tr)
  /\ (map result_test (submitted tr) = ran tr
      \/ exists t, ran tr = map result_test (submitted tr) ++ [t]).
Proof.
  induction 1 as [r tr L | r tr L (IH1 & IH2 & IH3)
                 | r test_index t s tr G L (IH1 & IH2 & IH3)].
  - destruct L as [ | | |test_index t s G|r Hr|r test_index t Hr G|r test_index t s Hr G];
      cbn; repeat split; auto;
      try (repeat constructor; eapply py_getitem_In; eassumption);
      try (intro; contradiction).
    right. exists t. reflexivity.
  - rewrite ran_app, submitted_app. cbn [wait_round ran submitted app map].
    repeat split; assumption.
  - cbn [dispatched ran submitted app map result_test]. repeat split.
    + constructor; [eapply py_getitem_In; eassumption|assumption].
    + intro E. now rewrite (IH2 E).
    + destruct IH3 as [E|(t0 & E)]; [left; now rewrite E|].
      right. exists t0. now rewrite E.
Qed.

(** X5. In every run of [start], every test that is run is one of the
    worker's collected tests, and results are submitted in the order in which
    the tests were run: the tests of the submitted results are the tests
    run, but for the last one when [start] did not leave the loop normally;
    when [start] returns normally every test that was run has its result
    submitted. *)
Theorem runs_collected_tests_and_submits_in_order (self : Worker) (w : world) :
  Forall (fun t => In t (collected_tests self)) (ran (snd (run_start_ self w)))
  /\ (fst (run_start_ self w) = Ok tt ->
      map result_test (submitted (snd (run_start_ self w)))
      = ran (snd (run_start_ self w)))
  /\ (map result_test (submitted (snd (run_start_ self w)))
      = ran (snd (run_start_ self w))
      \/ exists t,
           ran (snd (run_start_ self w))
           = map result_test (submitted (snd (run_start_ self w))) ++ [t]).
Proof.
  destruct (validate_collection_reply w) eqn:Hv.
  - destruct (start_shape_ self w Hv) as (r & body & Hbody & Hshape).
    rewrite Hshape. cbn [fst snd].
    destruct (loop_run_tests self r body Hbody) as (H1 & H2 & H3).
    assert (Hp : ran (prologue self w ++ [ThreadStart; EnterStartedContext]) = []
                 /\ submitted (prologue self w ++ [ThreadStart; EnterStartedContext]) = [])
      by (unfold prologue; destruct (is_process_group_leader w); split; reflexivity).
    assert (He : ran (epilogue INTERRUPTION_EXCEPTIONS (client_id self) r) = []
                 /\ submitted (epilogue INTERRUPTION_EXCEPTIONS (client_id self) r) = []).
    { unfold epilogue, on_exit.
      destruct r as [[]|e|]; [| destruct (isinstance e INTERRUPTION_EXCEPTIONS) |];
        split; reflexivity. }
    destruct Hp as (Hp1 & Hp2). destruct He as (He1 & He2).
    rewrite (ran_app (prologue self w ++ _)), (ran_app body),
      (submitted_app (prologue self w ++ _)), (submitted_app body),
      Hp1, Hp2, He1, He2, !app_nil_r. cbn [app].
    repeat split; assumption.
  - rewrite (run_start_mismatch self w Hv). cbn [fst snd].
    unfold prologue. destruct (is_process_group_leader w); cbn; repeat split; auto.
Qed.

(** ** Replies that are no index of the collection *)

Lemma py_getitem_out_of_range {A : Type} (l : list A) (z : Z) :
  (z < - Z.of_nat (List.length l) \/ Z.of_nat (List.length l) <= z)%Z ->
  py_getitem l (PyInt z) = inl IndexError.
Proof.
  intro H. unfold py_getitem.
  destruct (Z.ltb_spec z 0) as [Hneg|Hpos].
  - destruct (Z.ltb_spec (z + Z.of_nat (List.length l)) 0) as [|Hk]; [reflexivity|].
    destruct (Z.leb_spec (Z.of_nat (List.length l)) (z + Z.of_nat (List.length l)));
      [reflexivity|lia].
  - destruct (Z.ltb_spec z 0) as [|_]; [lia|].
    destruct (Z.leb_spec (Z.of_nat (List.length l)) z); [reflexivity|lia].
Qed.

Lemma py_getitem_from_the_end {A : Type} (l : list A) (k : nat) :
  (1 <= k <= List.length l)%nat ->
  py_getitem l (PyInt (- Z.of_nat k))
  = match nth_error l (List.length l - k) with
    | Some x => inr x
    | None => inl IndexError
    end.
Proof.
  intro H. unfold py_getitem.
  destruct (Z.ltb_spec (- Z.of_nat k) 0) as [_|Hpos]; [|lia].
  destruct (Z.ltb_spec (- Z.of_nat k + Z.of_nat (List.length l)) 0) as [|_]; [lia|].
  destruct (Z.leb_spec (Z.of_nat (List.length l))
              (- Z.of_nat k + Z.of_nat (List.length l))) as [|_]; [lia|].
  cbn [orb].
  replace (Z.to_nat (- Z.of_nat k + Z.of_nat (List.length l)))
    with (List.length l - k)%nat by lia.
  reflexivity.
Qed.

(** X6. A reply of [get_test] that is none of the control codes and is an
    integer outside the range of the collection, or no integer at all, makes
    the lookup raise ([IndexError], [TypeError]): a validated worker that
    gets it as first reply runs no test, does not disconnect and does not
    mark the session complete; the exception leaves [start] after the
    teardown. *)
Theorem reply_out_of_range_raises (self : Worker) (w : world) (test_index : pyval)
    (rest : list reply) :
  validate_collection_reply w = true ->
  get_test_replies w = Returns test_index :: rest ->
  ~ In test_index the_sentinels ->
  (forall z, test_index = PyInt z ->
     (z < - Z.of_nat (List.length (collected_tests self))
      \/ Z.of_nat (List.length (collected_tests self)) <= z)%Z) ->
  let e := match test_index with PyInt _ => IndexError | _ => TypeError end in
  run_start_ self w
    = (Exc e,
       prologue self w
         ++ [ThreadStart; EnterStartedContext; Rpc (get_test (client_id self))]
         ++ (if isinstance e INTERRUPTION_EXCEPTIONS then [LogError interrupted_msg] else [])
         ++ [FlushRemainingScopes; StopEventSet; ThreadJoin; ExitStartedContext])
  /\ ran (snd (run_start_ self w)) = []
  /\ count is_disconnect (snd (run_start_ self w)) = 0
  /\ count is_mark_complete (snd (run_start_ self w)) = 0.
Proof.
  intros Hv Hg Hs Hz e.
  assert (Hi : py_getitem (collected_tests self) test_index = inl e).
  { subst e. destruct test_index as [z| |]; [|reflexivity|reflexivity].
    apply py_getitem_out_of_range. now apply Hz. }
  assert (Hrun : run_start_ self w
                 = (Exc e,
                    prologue self w
                      ++ [ThreadStart; EnterStartedContext; Rpc (get_test (client_id self))]
                      ++ (if isinstance e INTERRUPTION_EXCEPTIONS
                          then [LogError interrupted_msg] else [])
                      ++ [FlushRemainingScopes; StopEventSet; ThreadJoin;
                          ExitStartedContext])).
  { erewrite start_validated; [|exact Hv|].
    2:{ rewrite Hg. apply loop_unresolved_index; eassumption. }
    cbn [emits trace boot app on_exit teardown_events].
    rewrite <- !app_assoc. reflexivity. }
  split; [exact Hrun|].
  rewrite Hrun. cbn [snd]. unfold prologue.
  destruct (is_process_group_leader w), (isinstance e INTERRUPTION_EXCEPTIONS);
    repeat split.
Qed.

(** X7. A negative reply counts from the end of the collection, as Python
    lists do: for 1 <= k <= len, the reply -k makes the worker run and
    submit the test at position len - k; nothing in the loop rejects it. *)
Theorem negative_reply_runs_test_from_the_end (self : Worker) (k : nat) (t : test)
    (s : status) (ack : pyval) (runs : list (exn + status)) (acks rest : list reply)
    (m : machine) :
  (1 <= k <= List.length (collected_tests self))%nat ->
  nth_error (collected_tests self) (List.length (collected_tests self) - k) = Some t ->
  ~ In (PyInt (- Z.of_nat k)) the_sentinels ->
  run_tests_outcomes m = inr s :: runs ->
  finished_test_replies m = Returns ack :: acks ->
  loop self (Returns (PyInt (- Z.of_nat k)) :: rest) false m
  = loop self rest (py_eqb ack PROTOCOL_ERROR)
      {| trace := trace m ++ Rpc (get_test (client_id self))
                    :: dispatched self (PyInt (- Z.of_nat k)) t s
                    ++ (if py_eqb ack PROTOCOL_ERROR
                        then [LogError (protocol_error_msg (client_id self))] else []);
         finished_test_replies := acks;
         run_tests_outcomes := runs |}.
Proof.
  intros Hk Hn Hs Hr Ha.
  apply loop_dispatch_acknowledged; try assumption.
  rewrite (py_getitem_from_the_end _ _ Hk), Hn. reflexivity.
Qed.

(** X8. The worker never gives up waiting: however many times in a row the
    master answers WAITING_FOR_CLIENTS, the worker sleeps and asks again;
    after [n] such answers it has slept [n] times and made call [n + 1] of
    [get_test], whose answer it waits for. *)
Theorem waits_without_bound (self : Worker) (n : nat) (m : machine) :
  loop self (repeat (Returns WAITING_FOR_CLIENTS) n) false m
    = (Hang, emits (wait_rounds n (client_id self)
                      ++ [Rpc (get_test (client_id self))]) m)
  /\ count is_sleep (wait_rounds n (client_id self)
                       ++ [Rpc (get_test (client_id self))]) = n
  /\ count is_get_test (wait_rounds n (client_id self)
                          ++ [Rpc (get_test (client_id self))]) = S n.
Proof.
  destruct (wait_rounds_counts n (client_id self)) as (C1 & C2 & _).
  split; [|split].
  - rewrite <- (app_nil_r (repeat _ n)), loop_waiting_rounds, loop_no_reply, emits_emits.
    reflexivity.
  - rewrite count_app, C1. cbn. lia.
  - rewrite count_app, C2. cbn. lia.
Qed.

(** ** The warning hook, on all its ways *)

Variable pickle_dumps : warning_record -> exn + string.
Variable report_warning_raises : string -> option exn.

(** X9. A warning that pickles and is accepted by the transport is sent
    once, as the pickled bytes under the worker's client id; nothing is
    logged and the hook returns normally. *)
Theorem picklable_warning_is_reported (self : Worker) (warning : warning_record)
    (pickled : string) (m : machine) :
  pickle_dumps warning = inr pickled ->
  report_warning_raises pickled = None ->
  warning_added pickle_dumps report_warning_raises self warning m
  = (Ok tt, emits [Rpc (report_warning (client_id self) pickled)] m).
Proof.
  intros Hp Hr. unfold warning_added, call_report_warning. rewrite Hp.
  run_monad. rewrite Hr. run_monad. reflexivity.
Qed.

(** X10. The hook returns normally in two cases only: [pickle.dumps] raised
    [PicklingError] or [TypeError], or the warning pickled and
    [report_warning] returned.  It never both logs and calls
    [report_warning], and does each at most once. *)
Theorem warning_hook_returns_normally_iff (self : Worker) (warning : warning_record)
    (m : machine) :
  (fst (warning_added pickle_dumps report_warning_raises self warning m) = Ok tt
   <-> (exists e, pickle_dumps warning = inl e
                  /\ isinstance e [PicklingError; TypeError] = true)
       \/ (exists pickled, pickle_dumps warning = inr pickled
                           /\ report_warning_raises pickled = None))
  /\ exists tr,
       trace (snd (warning_added pickle_dumps report_warning_raises self warning m))
       = trace m ++ tr
       /\ count is_log_error tr + count is_report_warning tr <= 1.
Proof.
  unfold warning_added, call_report_warning, log_pickle_failure.
  destruct (pickle_dumps warning) as [e|pickled] eqn:Hp.
  - destruct (isinstance e [PicklingError; TypeError]) eqn:He.
    + cbn [getattr_message getattr_filename getattr_lineno]. run_monad. cbn [fst snd].
      split.
      * split; [intros _; left; eauto|reflexivity].
      * eexists. split; [trace_eq|]. cbn. lia.
    + run_monad. cbn [fst snd]. split.
      * split; [discriminate|].
        intros [(e' & E & He')|(p & E & _)]; [|discriminate].
        injection E as <-. congruence.
      * exists []. split; [now rewrite app_nil_r|]. cbn. lia.
  - run_monad. destruct (report_warning_raises pickled) as [e|] eqn:Hr.
    + run_monad. destruct (isinstance e [PicklingError; TypeError]) eqn:He;
        cbn [getattr_message]; run_monad; cbn [fst snd]; (split;
          [ split; [discriminate|];
            intros [(e' & E & _)|(p & E & Hn)]; [discriminate|];
            injection E as <-; congruence
          | eexists; split; [trace_eq|]; cbn; lia ]).
    + run_monad. cbn [fst snd]. split.
      * split; [intros _; right; eauto|reflexivity].
      * eexists. split; [trace_eq|]. cbn. lia.
Qed.

End MoreFacts.

(** * Properties of the planned test suite *)

From Stdlib Require Import Permutation FinFun.

Module SuiteFacts.
Import Suite.


Lemma last_item_snoc {A : Type} (l : list A) (x : A) : last_item (l ++ [x]) = Some x.
Proof.
  destruct l as [|a l]; [reflexivity|]. cbn [app last_item]. now rewrite last_last.
Qed.

Lemma on_last_snoc {A : Type} (f : A -> A) (l : list A) (x : A) :
  on_last f (l ++ [x]) = l ++ [f x].
Proof.
  induction l as [|a l IH]; [reflexivity|].
  cbn [app on_last]. rewrite IH.
  destruct (l ++ [x]) eqn:E; [destruct l; discriminate|]. reflexivity.
Qed.

Section WithUuid.
Variable uuid1 : nat -> string.

Lemma add_test_first (self : TestSuite) :
  files self = [] ->
  add_test uuid1 self
  = inr ({| id_gen := S (S (S (id_gen self)));
            files := [{| file_id := S (S (id_gen self)); classes := [grown_class self] |}];
            _all_tests := _all_tests self ++ [List.length (heap self)];
            heap := heap self ++ [PlannedTest_init (id_gen self)
                                    (uuid1 (List.length (heap self)))] |},
         List.length (heap self)).
Proof.
  intro Hf. unfold add_test, _get_class_for_adding_test, _get_file_for_adding_class,
    next_id, set_heap, set_files. cbn. rewrite Hf. cbn. reflexivity.
Qed.

Lemma add_test_next (self : TestSuite) (init : list File) (l : File)
    (cs : list Class) (c : Class) :
  files self = init ++ [l] ->
  classes l = cs ++ [c] ->
  can_add_test c = true ->
  add_test uuid1 self
  = inr ({| id_gen := if can_add_class l then S (S (id_gen self))
                      else S (S (S (id_gen self)));
            files := if can_add_class l
                     then init ++ [{| file_id := file_id l;
                                      classes := classes l ++ [grown_class self] |}]
                     else init ++ [l; {| file_id := S (S (id_gen self));
                                         classes := [grown_class self] |}];
            _all_tests := _all_tests self ++ [List.length (heap self)];
            heap := heap self ++ [PlannedTest_init (id_gen self)
                                    (uuid1 (List.length (heap self)))] |},
         List.length (heap self)).
Proof.
  intros Hf Hc Ht. unfold add_test, _get_class_for_adding_test,
    _get_file_for_adding_class, next_id, set_heap, set_files.
  cbn [id_gen files _all_tests heap]. rewrite Hf, !last_item_snoc, Hc, last_item_snoc, Ht.
  cbn [negb id_gen files _all_tests heap].
  destruct (can_add_class l) eqn:Ha; cbn [negb id_gen files _all_tests heap].
  - rewrite !on_last_snoc. cbn [classes file_id]. rewrite on_last_snoc, Hc. reflexivity.
  - rewrite !on_last_snoc. cbn. rewrite <- app_assoc. reflexivity.
Qed.

Lemma well_formed_init : well_formed TestSuite_init.
Proof.
  split; cbn; auto. constructor.
Qed.

Lemma flat_map_flat_map {A B C : Type} (f : A -> list B) (g : B -> list C) (l : list A) :
  flat_map g (flat_map f l) = flat_map (fun x => flat_map g (f x)) l.
Proof.
  induction l as [|x l IH]; [reflexivity|]. cbn. now rewrite flat_map_app, IH.
Qed.

Lemma length_flat_map_const {A B : Type} (f : A -> list B) (k : nat) (l : list A) :
  Forall (fun x => List.length (f x) = k) l ->
  List.length (flat_map f l) = k * List.length l.
Proof.
  induction 1 as [|x l Hx Hl IH]; cbn; [lia|]. rewrite length_app, IH, Hx. lia.
Qed.

Lemma well_formed_class_count (self : TestSuite) :
  well_formed self -> List.length (all_classes self) = List.length (heap self).
Proof.
  intros [Hrefs Hview Hcls _ _ _ _].
  assert (E : List.length (tests_refs self) = List.length (heap self))
    by (rewrite Hview, Hrefs, length_seq; reflexivity).
  unfold tests_refs in E. rewrite <- flat_map_flat_map in E.
  fold (all_classes self) in E.
  rewrite (length_flat_map_const tests 1 _ Hcls) in E. lia.
Qed.

Lemma well_formed_file_count (self : TestSuite) :
  well_formed self ->
  List.length (files self) = (List.length (heap self) + 2) / 3
  /\ Forall (fun f => 1 <= List.length (classes f) <= NUM_CLASSES_PER_FILE) (files self).
Proof.
  intro Hwf. pose proof (well_formed_class_count self Hwf) as Hc.
  destruct Hwf as [_ _ _ Hfiles _ _ _]. unfold all_classes in Hc.
  destruct Hfiles as [Hnil|(init & l & Hf & Hfull & Hlast)].
  - rewrite Hnil in *. cbn in Hc. rewrite <- Hc. split; [reflexivity|constructor].
  - rewrite Hf in *. rewrite flat_map_app, length_app in Hc. cbn in Hc.
    rewrite app_nil_r, (length_flat_map_const classes 3 _ Hfull) in Hc.
    split.
    + rewrite length_app. cbn [List.length].
      apply (Nat.div_unique _ 3 _ (List.length (classes l) - 1)); lia.
    + apply Forall_app. split; [|constructor; [unfold NUM_CLASSES_PER_FILE; lia|constructor]].
      eapply Forall_impl; [|exact Hfull]. cbn. unfold NUM_CLASSES_PER_FILE. intros; lia.
Qed.

Lemma perm_ids (A B C : list nat) (a b : nat) (cs : list nat) :
  Permutation ((A ++ [a]) ++ (B ++ [b]) ++ (C ++ cs)) (a :: b :: cs ++ A ++ B ++ C).
Proof.
  rewrite <- !app_assoc. cbn [app].
  rewrite <- Permutation_middle. constructor.
  rewrite (app_assoc A B), <- Permutation_middle, <- app_assoc. constructor.
  rewrite (Permutation_app_comm C cs). rewrite !app_assoc.
  rewrite (Permutation_app_comm (A ++ B) cs), <- !app_assoc. reflexivity.
Qed.

Lemma add_test_grows (self : TestSuite) :
  files self = []
  \/ (exists init l,
        files self = init ++ [l]
        /\ Forall (fun f => List.length (classes f) = 3) init
        /\ 1 <= List.length (classes l) <= 3) ->
  Forall (fun c => List.length (tests c) = 1) (all_classes self) ->
  exists (self' : TestSuite) (new_files : list nat),
    add_test uuid1 self = inr (self', List.length (heap self))
    /\ heap self' = heap self ++ [PlannedTest_init (id_gen self)
                                    (uuid1 (List.length (heap self)))]
    /\ _all_tests self' = _all_tests self ++ [List.length (heap self)]
    /\ tests_refs self' = tests_refs self ++ [List.length (heap self)]
    /\ all_classes self' = all_classes self ++ [grown_class self]
    /\ map file_id (files self') = map file_id (files self) ++ new_files
    /\ (new_files = [] \/ new_files = [S (S (id_gen self))])
    /\ id_gen self' = S (S (id_gen self)) + List.length new_files
    /\ (exists init l,
          files self' = init ++ [l]
          /\ Forall (fun f => List.length (classes f) = 3) init
          /\ 1 <= List.length (classes l) <= 3).
Proof.
  intros [Hnil|(init & l & Hf & Hfull & Hlast)] Hcls.
  - rewrite (add_test_first self Hnil).
    eexists. exists [S (S (id_gen self))]. split; [reflexivity|].
    unfold tests_refs, all_classes. cbn [files heap _all_tests id_gen]. rewrite Hnil.
    repeat split; auto; try (cbn; lia).
    exists [], {| file_id := S (S (id_gen self)); classes := [grown_class self] |}.
    repeat split; cbn; auto.
  - destruct (exists_last (l := classes l)) as (cs & c & Hc);
      [intro E; rewrite E in Hlast; cbn in Hlast; lia|].
    assert (Ht : can_add_test c = true).
    { unfold can_add_test, NUM_TESTS_PER_CLASS.
      assert (K : In c (all_classes self)).
      { unfold all_classes. rewrite Hf, flat_map_app. apply in_or_app. right.
        cbn. rewrite app_nil_r, Hc. apply in_or_app. right. now left. }
      rewrite Forall_forall in Hcls. rewrite (Hcls c K). reflexivity. }
    rewrite (add_test_next self init l cs c Hf Hc Ht).
    assert (Hcan : can_add_class l = (List.length (classes l) <? 3)%nat) by reflexivity.
    destruct (can_add_class l) eqn:Ha; symmetry in Hcan;
      [apply Nat.ltb_lt in Hcan|apply Nat.ltb_ge in Hcan].
    + eexists. exists []. split; [reflexivity|].
      unfold tests_refs, all_classes. cbn [files heap _all_tests id_gen]. rewrite Hf.
      rewrite !flat_map_app, !map_app. cbn [flat_map map classes file_id].
      rewrite !app_nil_r, !flat_map_app. cbn [flat_map grown_class tests].
      rewrite <- !app_assoc.
      repeat split; auto; try (cbn; lia).
      eexists init, _. split; [reflexivity|]. split; [assumption|].
      cbn [classes]. rewrite length_app. cbn. lia.
    + eexists. exists [S (S (id_gen self))]. split; [reflexivity|].
      unfold tests_refs, all_classes. cbn [files heap _all_tests id_gen]. rewrite Hf.
      rewrite !flat_map_app, !map_app. cbn [flat_map map classes file_id app grown_class tests].
      rewrite !app_nil_r, <- ?app_assoc.
      repeat split; auto; try (cbn; lia).
      exists (init ++ [l]), {| file_id := S (S (id_gen self));
                               classes := [grown_class self] |}.
      split; [now rewrite <- app_assoc|]. split; [|cbn; lia].
      apply Forall_app. split; [assumption|]. repeat constructor. lia.
Qed.

Lemma add_test_well_formed (self : TestSuite) :
  well_formed self ->
  exists self',
    add_test uuid1 self = inr (self', List.length (heap self))
    /\ well_formed self'
    /\ heap self' = heap self ++ [PlannedTest_init (id_gen self)
                                    (uuid1 (List.length (heap self)))].
Proof.
  intros [Hrefs Hview Hcls Hfiles Hfresh Hdist Hnext].
  destruct (add_test_grows self Hfiles Hcls)
    as (self' & nf & Hadd & Hheap & Hall & Htr & Hac & Hfi & Hnf & Hid & Hshape).
  exists self'. split; [assumption|]. split; [|assumption].
  assert (Hids : Permutation (all_ids self')
                   (id_gen self :: S (id_gen self) :: nf ++ all_ids self)).
  { unfold all_ids. rewrite Hheap, Hac, Hfi, !map_app. cbn [map]. apply perm_ids. }
  assert (Hnew : forall i, In i (id_gen self :: S (id_gen self) :: nf) ->
                           id_gen self <= i < id_gen self').
  { intros i Hi. rewrite Hid.
    destruct Hnf as [-> | ->]; cbn in Hi |- *; intuition lia. }
  split.
  - rewrite Hall, Hheap, length_app, Nat.add_1_r, seq_S, Hrefs. reflexivity.
  - now rewrite Htr, Hview, Hall.
  - rewrite Hac. apply Forall_app. split; [assumption|]. repeat constructor.
  - right. exact Hshape.
  - rewrite Forall_forall in *. intros i Hi.
    apply (Permutation_in _ Hids) in Hi.
    change (In i ((id_gen self :: S (id_gen self) :: nf) ++ all_ids self)) in Hi.
    apply in_app_or in Hi. destruct Hi as [Hi|Hi]; [now apply Hnew|].
    apply Hfresh in Hi. rewrite Hid. lia.
  - apply (Permutation_NoDup (Permutation_sym Hids)).
    change (NoDup ((id_gen self :: S (id_gen self) :: nf) ++ all_ids self)).
    apply NoDup_app; [| assumption |].
    + destruct Hnf as [-> | ->]; repeat constructor; cbn; intuition lia.
    + intros i Hi Hold. apply Hnew in Hi. rewrite Forall_forall in Hfresh.
      apply Hfresh in Hold. lia.
  - rewrite (Permutation_length Hids), Hid. cbn [List.length].
    rewrite length_app, Hnext. lia.
Qed.

Lemma populate_well_formed (n : nat) :
  forall self,
    well_formed self ->
    exists self' news,
      populate_ uuid1 n self = inr self'
      /\ well_formed self'
      /\ heap self' = heap self ++ news
      /\ List.length news = n
      /\ Forall pristine news
      /\ map uuid news
         = map (fun k => replace_dashes (uuid1 k)) (seq (List.length (heap self)) n).
Proof.
  induction n as [|n IH]; intros self Hwf.
  - exists self, []. rewrite app_nil_r.
    split; [reflexivity|]. split; [assumption|]. split; [reflexivity|].
    split; [reflexivity|]. split; [constructor|reflexivity].
  - destruct (add_test_well_formed self Hwf) as (self1 & Hadd & Hwf1 & Hheap1).
    destruct (IH self1 Hwf1) as (self2 & news & Hpop & Hwf2 & Hheap2 & Hlen & Hpr & Hu).
    exists self2, (PlannedTest_init (id_gen self) (uuid1 (List.length (heap self))) :: news).
    cbn [populate_]. rewrite Hadd. split; [assumption|]. split; [assumption|].
    split; [rewrite Hheap2, Hheap1, <- app_assoc; reflexivity|].
    split; [cbn; lia|]. split; [constructor; [|assumption]; repeat split|].
    cbn [map seq PlannedTest_init uuid]. f_equal.
    rewrite Hu, Hheap1, length_app. cbn [List.length]. now rewrite Nat.add_1_r.
Qed.
End WithUuid.

Lemma deref_all_seq (self : TestSuite) (pre h : list PlannedTest) :
  heap self = pre ++ h ->
  deref_all self (seq (List.length pre) (List.length h)) = h.
Proof.
  revert pre. induction h as [|x h IH]; intros pre Hh; [reflexivity|].
  cbn [List.length seq deref_all]. unfold deref.
  rewrite Hh, nth_error_app2, Nat.sub_diag by lia. cbn [nth_error]. f_equal.
  replace (S (List.length pre)) with (List.length (pre ++ [x]))
    by (rewrite length_app; cbn; lia).
  apply IH. now rewrite <- app_assoc.
Qed.

Lemma deref_all_whole (self : TestSuite) :
  deref_all self (seq 0 (List.length (heap self))) = heap self.
Proof. apply (deref_all_seq self []). reflexivity. Qed.

Lemma well_formed_tests (self : TestSuite) :
  well_formed self ->
  tests_ self = heap self /\ deref_all self (_all_tests self) = heap self.
Proof.
  intros [Hrefs Hview _ _ _ _ _]. unfold tests_. rewrite Hview, Hrefs.
  split; apply (deref_all_seq self []); reflexivity.
Qed.

Lemma on_object_app (f : PlannedTest -> PlannedTest) (pre : list PlannedTest)
    (x : PlannedTest) (post : list PlannedTest) :
  on_object (List.length pre) f (pre ++ x :: post) = pre ++ f x :: post.
Proof. induction pre as [|a pre IH]; [reflexivity|]. cbn. now rewrite IH. Qed.

Lemma on_object_length (f : PlannedTest -> PlannedTest) (ref : nat) (h : list PlannedTest) :
  List.length (on_object ref f h) = List.length h.
Proof.
  revert ref. induction h as [|x h IH]; intros [|ref]; cbn; auto.
Qed.

Lemma on_object_nth (f : PlannedTest -> PlannedTest) (ref i : nat) (h : list PlannedTest) :
  nth_error (on_object ref f h) i
  = if Nat.eqb i ref then option_map f (nth_error h i) else nth_error h i.
Proof.
  revert ref i. induction h as [|x h IH]; intros [|ref] [|i]; cbn; auto;
    destruct (Nat.eqb i ref); reflexivity.
Qed.

Lemma fold_on_objects (f : PlannedTest -> PlannedTest) (mid : list PlannedTest) :
  forall (self : TestSuite) (pre post : list PlannedTest),
    heap self = pre ++ mid ++ post ->
    fold_left (fun s ref => set_heap s (on_object ref f (heap s)))
      (seq (List.length pre) (List.length mid)) self
    = set_heap self (pre ++ map f mid ++ post).
Proof.
  induction mid as [|x mid IH]; intros self pre post Hh.
  - cbn in *. rewrite <- Hh. now destruct self.
  - cbn [List.length seq fold_left].
    replace (S (List.length pre)) with (List.length (pre ++ [f x]))
      by (rewrite length_app; cbn; lia).
    rewrite (IH _ (pre ++ [f x]) post).
    + unfold set_heap. cbn. rewrite <- app_assoc. reflexivity.
    + cbn [heap set_heap]. rewrite Hh. cbn [app]. rewrite on_object_app, <- app_assoc.
      reflexivity.
Qed.

Lemma fix_all_heap (self : TestSuite) :
  _all_tests self = seq 0 (List.length (heap self)) ->
  fix_all self = set_heap self (map fix_ (heap self)).
Proof.
  intro Hrefs. unfold fix_all. rewrite Hrefs.
  pose proof (fold_on_objects fix_ (heap self) self [] []) as H.
  cbn [List.length app] in H. rewrite !app_nil_r in H. now apply H.
Qed.

Lemma fix_idempotent (t : PlannedTest) : fix_ (fix_ t) = fix_ t.
Proof.
  unfold fix_. destruct (String.eqb (result t) _SKIP) eqn:E; cbn [negb].
  - now rewrite E.
  - reflexivity.
Qed.

Lemma nth_error_seq0 (n i : nat) : i < n -> nth_error (seq 0 n) i = Some i.
Proof.
  intro H. rewrite (nth_error_nth' _ 0) by (now rewrite length_seq).
  now rewrite seq_nth.
Qed.


Section Populated.

Variable uuid1 : nat -> string.

Lemma populated (num_tests : Z) :
  exists s,
    populate uuid1 TestSuite_init num_tests = inr s
    /\ well_formed s
    /\ List.length (heap s) = Z.to_nat num_tests
    /\ Forall pristine (heap s)
    /\ map uuid (heap s)
       = map (fun k => replace_dashes (uuid1 k)) (seq 0 (Z.to_nat num_tests)).
Proof.
  destruct (populate_well_formed uuid1 (Z.to_nat num_tests) TestSuite_init well_formed_init)
    as (s & news & Hpop & Hwf & Hheap & Hlen & Hpr & Hu).
  exists s. cbn [heap TestSuite_init app] in Hheap. subst news.
  split; [assumption|]. split; [assumption|]. split; [assumption|]. split; assumption.
Qed.

(** X11. [populate] on a new suite makes [num_tests] tests (none for a
    negative number) and never raises; every test gets a class of its own:
    there are as many classes as tests and each class holds exactly one
    test, so that no class ever reaches [NUM_TESTS_PER_CLASS]. *)
Theorem populate_gives_every_test_its_own_class (num_tests : Z) :
  exists s,
    populate uuid1 TestSuite_init num_tests = inr s
    /\ len s = Z.to_nat num_tests
    /\ List.length (all_classes s) = Z.to_nat num_tests
    /\ Forall (fun c => List.length (tests c) = 1) (all_classes s).
Proof.
  destruct (populated num_tests) as (s & Hpop & Hwf & Hlen & _).
  exists s. split; [assumption|].
  pose proof (well_formed_class_count s Hwf) as Hc.
  destruct Hwf as [Hrefs _ Hcls _ _ _ _].
  unfold len. rewrite Hrefs, length_seq. repeat split; auto. lia.
Qed.

(** X12. [populate] on a new suite fills the files with
    [NUM_CLASSES_PER_FILE] classes each before it starts a new file: [n]
    tests make ceil(n/3) files, and no file is empty or holds more than
    three classes. *)
Theorem populate_fills_files_by_three (num_tests : Z) :
  exists s,
    populate uuid1 TestSuite_init num_tests = inr s
    /\ List.length (files s) = (Z.to_nat num_tests + 2) / 3
    /\ Forall (fun f => 1 <= List.length (classes f) <= NUM_CLASSES_PER_FILE) (files s).
Proof.
  destruct (populated num_tests) as (s & Hpop & Hwf & Hlen & _).
  exists s. split; [assumption|].
  destruct (well_formed_file_count s Hwf) as (Hn & Hall). rewrite Hn, Hlen. now split.
Qed.

(** X13. The property [tests], which walks the files and their classes,
    yields the tests of a populated suite in the order in which they were
    added, the order of [_all_tests]; each of them is selected and planned to
    succeed. *)
Theorem tests_come_in_the_order_added (num_tests : Z) :
  exists s,
    populate uuid1 TestSuite_init num_tests = inr s
    /\ tests_ s = deref_all s (_all_tests s)
    /\ List.length (tests_ s) = Z.to_nat num_tests
    /\ Forall (fun t => selected t = true /\ result t = _SUCCESS) (tests_ s).
Proof.
  destruct (populated num_tests) as (s & Hpop & Hwf & Hlen & Hpr & _).
  exists s. split; [assumption|].
  destruct (well_formed_tests s Hwf) as (Ht & Ha). rewrite Ht, Ha.
  repeat split; auto.
  eapply Forall_impl; [|exact Hpr]. intros t (H1 & H2 & _). now split.
Qed.

(** X14. Tests, classes and files draw their ids from the one counter
    [id_gen]: after [populate] on a new suite no id is shared by two of them,
    the ids in use are exactly the numbers below the counter, and the counter
    stands at two per test plus one per file. *)
Theorem ids_are_handed_out_once (num_tests : Z) :
  exists s,
    populate uuid1 TestSuite_init num_tests = inr s
    /\ NoDup (all_ids s)
    /\ Forall (fun i => i < id_gen s) (all_ids s)
    /\ id_gen s = List.length (all_ids s)
    /\ id_gen s = 2 * Z.to_nat num_tests + (Z.to_nat num_tests + 2) / 3.
Proof.
  destruct (populated num_tests) as (s & Hpop & Hwf & Hlen & _).
  exists s. split; [assumption|].
  pose proof (well_formed_class_count s Hwf) as Hc.
  destruct (well_formed_file_count s Hwf) as (Hn & _).
  destruct Hwf as [_ _ _ _ Hfresh Hdist Hnext].
  repeat split; auto.
  rewrite Hnext. unfold all_ids. rewrite !length_app, !length_map, Hc, Hn, Hlen. lia.
Qed.

(** X15. [fail_in_middle] on a populated suite raises [AssertionError] when
    the suite has fewer than three tests; otherwise it returns the index
    [len // 2] and plans the test at that index to fail.  The change is seen
    through [tests] as well, and no other test is changed. *)
Theorem fail_in_middle_fails_the_middle_test (num_tests : Z) :
  exists s,
    populate uuid1 TestSuite_init num_tests = inr s
    /\ fail_in_middle s
       = (if (3 <=? len s)%nat
          then inr (set_heap s (on_object (len s / 2) fail (heap s)), Z.of_nat (len s / 2))
          else inl (AssertionError ""))
    /\ (forall i,
          nth_error (tests_ (set_heap s (on_object (len s / 2) fail (heap s)))) i
          = if Nat.eqb i (len s / 2) then option_map fail (nth_error (tests_ s) i)
            else nth_error (tests_ s) i).
Proof.
  destruct (populated num_tests) as (s & Hpop & Hwf & Hlen & _).
  exists s. split; [assumption|].
  destruct (well_formed_tests s Hwf) as (Ht & _).
  destruct Hwf as [Hrefs Hview _ _ _ _ _].
  assert (Hl : len s = List.length (heap s))
    by (unfold len; rewrite Hrefs, length_seq; reflexivity).
  split.
  - unfold fail_in_middle, getitem.
    replace (Z.of_nat (len s) / 2)%Z with (Z.of_nat (len s / 2))
      by (rewrite Nat2Z.inj_div; reflexivity).
    destruct (Nat.leb_spec 3 (len s)) as [Hge|Hlt].
    + assert (Hmid : (len s / 2 < len s)%nat) by (apply Nat.div_lt; lia).
      assert (Hpos : (1 <= len s / 2)%nat)
        by (change 1%nat with (2 / 2)%nat; apply Nat.Div0.div_le_mono; lia).
      assert (Hnl : (len s / 2 <> len s - 1)%nat).
      { pose proof (Nat.div_mod_eq (len s) 2) as E.
        pose proof (Nat.mod_upper_bound (len s) 2 ltac:(lia)). lia. }
      destruct (Z.eqb_spec (Z.of_nat (len s / 2)) 0) as [E|_]; [lia|].
      destruct (Z.eqb_spec (Z.of_nat (len s / 2)) (Z.of_nat (len s) - 1)) as [E|_]; [lia|].
      cbn [negb andb].
      rewrite (py_getitem_nth _ (len s / 2) (len s / 2)); [reflexivity|].
      rewrite Hrefs. apply nth_error_seq0. lia.
    + assert (Hcases : (len s = 0 \/ len s = 1 \/ len s = 2)%nat) by lia.
      destruct Hcases as [E|[E|E]]; rewrite E; reflexivity.
  - intro i. unfold tests_ at 1.
    change (tests_refs (set_heap s (on_object (len s / 2) fail (heap s))))
      with (tests_refs s).
    rewrite Hview, Hrefs.
    pose proof (deref_all_whole (set_heap s (on_object (len s / 2) fail (heap s)))) as Hd.
    cbn [set_heap heap] in Hd. rewrite on_object_length in Hd. rewrite Hd, Ht.
    apply on_object_nth.
Qed.

End Populated.

(** X16. [fix_all], on a suite whose [_all_tests] holds every planned test
    in the order of creation, applies [fix] to each test: afterwards every
    test is planned to succeed or to be skipped (a skip stays a skip), files
    and [_all_tests] are as before, and a second [fix_all] changes nothing. *)
Theorem fix_all_fixes_every_test_but_skips (s : TestSuite) :
  _all_tests s = seq 0 (List.length (heap s)) ->
  deref_all (fix_all s) (_all_tests (fix_all s)) = map fix_ (deref_all s (_all_tests s))
  /\ Forall (fun t => result t = _SUCCESS \/ result t = _SKIP)
       (deref_all (fix_all s) (_all_tests (fix_all s)))
  /\ fix_all (fix_all s) = fix_all s
  /\ files (fix_all s) = files s
  /\ _all_tests (fix_all s) = _all_tests s.
Proof.
  intro Hrefs. rewrite (fix_all_heap s Hrefs).
  assert (Hrefs' : _all_tests (set_heap s (map fix_ (heap s)))
                   = seq 0 (List.length (heap (set_heap s (map fix_ (heap s))))))
    by (cbn [set_heap _all_tests heap]; now rewrite length_map).
  split; [|split; [|split; [|split]]]; try reflexivity.
  - rewrite Hrefs' at 1. rewrite Hrefs at 1.
    rewrite !deref_all_whole. reflexivity.
  - rewrite Hrefs', deref_all_whole. cbn [set_heap heap].
    apply Forall_forall. intros t Hin. apply in_map_iff in Hin.
    destruct Hin as (t0 & <- & _). unfold fix_.
    destruct (String.eqb (result t0) _SKIP) eqn:E; cbn [negb].
    + right. now apply String.eqb_eq.
    + left. reflexivity.
  - rewrite (fix_all_heap _ Hrefs'). unfold set_heap. cbn.
    rewrite map_map. f_equal. apply map_ext. intro t. apply fix_idempotent.
Qed.


Lemma plans_written_or_refused (t : PlannedTest) :
  ((exists statement, _generate_test_statements t = inr [statement])
   \/ (_generate_test_statements t = inl NotImplementedError
       /\ forall r, verify_result t r = Some NotImplementedError))
  /\ (_generate_test_statements t = inl NotImplementedError
      <-> result t <> _SUCCESS /\ result t <> _FAILURE /\ result t <> _ERROR)
  /\ _generate_test_statements (fix_ t)
     = (if String.eqb (result t) _SKIP then inl NotImplementedError else inr ["pass"%string]).
Proof.
  unfold _generate_test_statements, verify_result, fix_.
  destruct (String.eqb_spec (result t) _SUCCESS) as [Es|Es];
    [|destruct (String.eqb_spec (result t) _FAILURE) as [Ef|Ef];
      [|destruct (String.eqb_spec (result t) _ERROR) as [Ee|Ee]]].
  - split; [left; eauto|]. split.
    + split; [discriminate|]. intros (H & _). contradiction.
    + rewrite Es. reflexivity.
  - split; [left; eauto|]. split.
    + split; [discriminate|]. intros (_ & H & _). contradiction.
    + rewrite Ef. reflexivity.
  - split; [left; eauto|]. split.
    + split; [discriminate|]. intros (_ & _ & H). contradiction.
    + rewrite Ee. reflexivity.
  - split; [right; split; [reflexivity|intro r; reflexivity]|]. split.
    + split; [intros _; auto|reflexivity].
    + destruct (String.eqb_spec (result t) _SKIP) as [Ek|Ek]; cbn [negb].
      * destruct (String.eqb_spec (result t) _SUCCESS); [contradiction|].
        destruct (String.eqb_spec (result t) _FAILURE); [contradiction|].
        destruct (String.eqb_spec (result t) _ERROR); [contradiction|]. reflexivity.
      * reflexivity.
Qed.

(** On a plan of success, failure or error [verify_result] passes or raises
    [AssertionError], never [NotImplementedError]. *)
Lemma checkable_plans_are_checked (t : PlannedTest) (r : observed) :
  result t = _SUCCESS \/ result t = _FAILURE \/ result t = _ERROR ->
  verify_result t r = None \/ verify_result t r = Some (AssertionError "").
Proof.
  unfold verify_result, and_then, assert_.
  intros [E|[E|E]]; rewrite E; cbn [String.eqb Ascii.eqb Bool.eqb];
    destruct (is_success r), (is_failure r), (is_error r); cbn; auto.
Qed.

(** X17. [_generate_test_statements] yields exactly one statement for a
    plan of success, failure or error, and raises [NotImplementedError] for
    every other plan, a skip among them; these are exactly the plans for
    which [verify_result] raises [NotImplementedError]: on such a plan it
    does so whatever the result, and on a plan that can be written it never
    does.  After [fix] a test can be written unless it was planned as a
    skip. *)
Theorem unwritable_plans_are_the_uncheckable_ones (t : PlannedTest) :
  ((exists statement, _generate_test_statements t = inr [statement])
   \/ (_generate_test_statements t = inl NotImplementedError
       /\ forall r, verify_result t r = Some NotImplementedError))
  /\ (_generate_test_statements t = inl NotImplementedError
      <-> result t <> _SUCCESS /\ result t <> _FAILURE /\ result t <> _ERROR)
  /\ _generate_test_statements (fix_ t)
     = (if String.eqb (result t) _SKIP then inl NotImplementedError else inr ["pass"%string])
  /\ (_generate_test_statements t = inl NotImplementedError
      <-> forall r, verify_result t r = Some NotImplementedError)
  /\ (_generate_test_statements t = inl NotImplementedError
      <-> exists r, verify_result t r = Some NotImplementedError)
  /\ ((exists statement, _generate_test_statements t = inr [statement])
      <-> forall r, verify_result t r = None
                    \/ verify_result t r = Some (AssertionError "")).
Proof.
  destruct (plans_written_or_refused t) as (Hcase & Hplan & Hfix).
  split; [exact Hcase|]. split; [exact Hplan|]. split; [exact Hfix|].
  pose (r0 := {| observed_method_name := ""; is_started := false; is_skip := false;
                 is_success := false; is_failure := false; is_error := false |}).
  assert (Hchk : forall r, verify_result t r = Some NotImplementedError ->
                           _generate_test_statements t = inl NotImplementedError).
  { intros r Hr. apply Hplan. repeat split; intro E;
      destruct (checkable_plans_are_checked t r) as [K|K];
      auto; rewrite K in Hr; discriminate. }
  split; [|split].
  - split.
    + intro Hg. destruct Hcase as [(st & Hst)|(_ & Hall)]; [congruence|exact Hall].
    + intro Hall. exact (Hchk r0 (Hall r0)).
  - split.
    + intro Hg. destruct Hcase as [(st & Hst)|(_ & Hall)]; [congruence|].
      exists r0. apply Hall.
    + intros (r & Hr). exact (Hchk r Hr).
  - split.
    + intros (st & Hst) r. apply checkable_plans_are_checked.
      destruct (String.eqb_spec (result t) _SUCCESS) as [|N1]; [auto|].
      destruct (String.eqb_spec (result t) _FAILURE) as [|N2]; [auto|].
      destruct (String.eqb_spec (result t) _ERROR) as [|N3]; [auto|].
      exfalso. assert (K : _generate_test_statements t = inl NotImplementedError)
        by (apply Hplan; auto).
      congruence.
    + intro Hall. destruct Hcase as [Hst|(_ & Hni)]; [exact Hst|].
      exfalso. destruct (Hall r0) as [K|K]; rewrite (Hni r0) in K; discriminate.
Qed.

Lemma replace_dashes_no_dash (s : string) :
  replace_dashes (replace_dashes s) = replace_dashes s
  /\ ~ In "-"%char (list_ascii_of_string (replace_dashes s)).
Proof.
  induction s as [|c s (IH1 & IH2)]; [split; [reflexivity|intros []]|].
  cbn [replace_dashes list_ascii_of_string].
  destruct (Ascii.eqb_spec c "-"%char) as [E|E].
  - cbn. rewrite IH1. split; [reflexivity|]. intros [H|H]; [discriminate|contradiction].
  - destruct (Ascii.eqb_spec c "-"%char) as [|_]; [contradiction|].
    rewrite IH1. split; [reflexivity|]. intros [H|H]; [congruence|contradiction].
Qed.

(** X18. The method name of a new planned test starts with [test_], the
    rest of it (what [_verify_results] cuts out with [method_name[5:]]) is
    the test's uuid, and the uuid holds no dash. *)
Theorem uuid_is_read_back_from_method_name (id : nat) (uuid1 : string) :
  String.prefix "test_" (method_name (PlannedTest_init id uuid1)) = true
  /\ drop 5 (method_name (PlannedTest_init id uuid1)) = uuid (PlannedTest_init id uuid1)
  /\ ~ In "-"%char (list_ascii_of_string (uuid (PlannedTest_init id uuid1))).
Proof.
  cbn [PlannedTest_init method_name uuid]. split; [|split].
  - cbn. now destruct (replace_dashes uuid1).
  - reflexivity.
  - apply replace_dashes_no_dash.
Qed.

Lemma dict_get_unique (d : dict) (k : string) (v : observed) :
  NoDup (map fst d) -> In (k, v) d -> dict_get k d = Some v.
Proof.
  induction d as [|(k' & v') d IH]; intros Hnd Hin; [contradiction|].
  cbn [map fst] in Hnd. inversion Hnd as [|? ? Hnotin Hnd']; subst.
  cbn [dict_get]. destruct Hin as [E|Hin].
  - injection E as -> ->. now rewrite String.eqb_refl.
  - destruct (String.eqb_spec k k') as [->|_]; [|now apply IH].
    exfalso. apply Hnotin. apply in_map_iff. exists (k', v). now split.
Qed.

Lemma index_results_passed (ts : list PlannedTest) :
  Forall pristine ts ->
  forall d,
    index_results (map passed ts) d
    = inr (rev (map (fun t => (uuid t, passed t)) ts) ++ d).
Proof.
  induction 1 as [|t ts (_ & _ & Hm) _ IH]; intro d; [reflexivity|].
  cbn [map index_results passed observed_method_name]. rewrite Hm.
  change (String.prefix "test_" ("test_" ++ uuid t)) with (String.prefix "" (uuid t)).
  assert (Hp : String.prefix "" (uuid t) = true) by now destruct (uuid t).
  rewrite Hp. change (drop 5 ("test_" ++ uuid t)%string) with (uuid t).
  rewrite IH. cbn [rev]. rewrite <- app_assoc. cbn [app].
  unfold passed. rewrite Hm. reflexivity.
Qed.

Lemma verify_tests_passed (stop_on_error : bool) (d : dict) (ts : list PlannedTest) :
  Forall (fun t => pristine t /\ dict_get (uuid t) d = Some (passed t)) ts ->
  verify_tests stop_on_error d ts false = None.
Proof.
  induction 1 as [|t ts ((Hs & Hr & _) & Hg) _ IH]; [reflexivity|].
  cbn [verify_tests]. rewrite Hs, Hg. cbn [negb]. unfold verify_result. rewrite Hr.
  cbn. exact IH.
Qed.

Section Verified.

Variable uuid1 : nat -> string.

(** X19. When the uuids are distinct, a session that reports, for every
    test of a populated suite, one started and successful result under the
    test's method name passes [_verify_results], with or without
    [stop_on_error]. *)
Theorem all_passed_session_verifies (num_tests : Z) (stop_on_error : bool) :
  (forall i j, replace_dashes (uuid1 i) = replace_dashes (uuid1 j) -> i = j) ->
  exists s,
    populate uuid1 TestSuite_init num_tests = inr s
    /\ _verify_results s (map passed (tests_ s)) stop_on_error = None.
Proof.
  intro Hinj.
  destruct (populated uuid1 num_tests) as (s & Hpop & Hwf & Hlen & Hpr & Hu).
  exists s. split; [assumption|].
  destruct (well_formed_tests s Hwf) as (Ht & Ha).
  unfold _verify_results. rewrite Ht, Ha, (index_results_passed _ Hpr), app_nil_r.
  apply verify_tests_passed. apply Forall_forall. intros t Hin. split.
  - rewrite Forall_forall in Hpr. now apply Hpr.
  - apply dict_get_unique.
    + assert (E : map fst (rev (map (fun t => (uuid t, passed t)) (heap s)))
                  = rev (map uuid (heap s)))
        by (rewrite <- !map_rev, map_map; reflexivity).
      rewrite E. apply NoDup_rev. rewrite Hu. apply Injective_map_NoDup; [exact Hinj|apply seq_NoDup].
    + apply -> in_rev. apply in_map_iff. exists t. now split.
Qed.

End Verified.

Lemma skipping_stays (stop_on_error : bool) (d : dict) (rest : list PlannedTest) :
  verify_tests stop_on_error d rest true = None ->
  Forall (fun t => selected t = true ->
                   exists r, dict_get (uuid t) d = Some r
                             /\ is_started r = false /\ is_skip r = true) rest.
Proof.
  induction rest as [|t rest IH]; intro H; [constructor|].
  cbn [verify_tests] in H. destruct (selected t) eqn:Hs; cbn [negb] in H.
  - destruct (dict_get (uuid t) d) as [r|] eqn:Hg; [|discriminate].
    unfold and_then, assert_ in H.
    destruct (is_started r) eqn:H1; cbn [negb] in H; [discriminate|].
    destruct (is_skip r) eqn:H2; [|discriminate].
    constructor; [intros _; eauto|].
    apply IH. now destruct (is_error r || is_failure r && stop_on_error)%bool.
  - destruct (dict_get (uuid t) d); [discriminate|].
    constructor; [congruence|]. now apply IH.
Qed.

(** X20. In a run that [_verify_results] accepts, every selected test
    after one whose result is an error has a result that was not started and
    is a skip, whatever [stop_on_error] is ([or] binds weaker than [and] in
    the test that sets [should_skip]); after a failure the same holds when
    [stop_on_error] is set. *)
Theorem error_makes_the_rest_skipped (self : TestSuite) (results : list observed)
    (stop_on_error : bool) (d : dict) (before : list PlannedTest) (t : PlannedTest)
    (after : list PlannedTest) (r : observed) :
  _verify_results self results stop_on_error = None ->
  index_results results [] = inr d ->
  deref_all self (_all_tests self) = before ++ t :: after ->
  selected t = true ->
  dict_get (uuid t) d = Some r ->
  is_error r = true \/ (is_failure r = true /\ stop_on_error = true) ->
  Forall (fun t' => selected t' = true ->
                    exists r', dict_get (uuid t') d = Some r'
                               /\ is_started r' = false /\ is_skip r' = true) after.
Proof.
  intros Hv Hd Hts Hs Hg Hstop. unfold _verify_results in Hv. rewrite Hd, Hts in Hv.
  clear Hd Hts.
  assert (G : forall skip,
            verify_tests stop_on_error d (before ++ t :: after) skip = None ->
            Forall (fun t' => selected t' = true ->
                              exists r', dict_get (uuid t') d = Some r'
                                         /\ is_started r' = false /\ is_skip r' = true)
              after); [|exact (G false Hv)].
  clear Hv. induction before as [|b before IH]; intros skip Hv.
  - cbn [app verify_tests] in Hv. rewrite Hs, Hg in Hv. cbn [negb] in Hv.
    destruct (if skip then and_then _ _ else verify_result t r); [discriminate|].
    assert (E : (is_error r || is_failure r && stop_on_error)%bool = true).
    { destruct Hstop as [->|(-> & ->)]; [reflexivity|now destruct (is_error r)]. }
    rewrite E in Hv. now apply skipping_stays in Hv.
  - cbn [app verify_tests] in Hv.
    destruct (selected b); cbn [negb] in Hv.
    + destruct (dict_get (uuid b) d) as [rb|]; [|discriminate].
      destruct (if skip then and_then _ _ else verify_result b rb); [discriminate|].
      eapply IH, Hv.
    + destruct (dict_get (uuid b) d); [discriminate|]. eapply IH, Hv.
Qed.

End SuiteFacts.

(** * More runs of the samples *)

(** X1 on the sample worker: the stop event is seen set at the third check. *)
Lemma keep_alive_pings_until_stopped_sample :
  keep_alive Sample.worker [false; false; true] [None; None; Some ConnectionError]
  = (Ok tt,
     [KeepAlive "http://localhost:8000" "w1"; StopEventWait 1;
      KeepAlive "http://localhost:8000" "w1"; StopEventWait 1]).
Proof.
  exact (proj1 (keep_alive_pings_until_stopped Sample.worker 2 []
                  [None; None; Some ConnectionError]
                  ltac:(cbn; lia) ltac:(repeat constructor))).
Defined.

(** X6 on the sample worker: index 3 of a collection of three tests. *)
Lemma reply_out_of_range_raises_sample :
  Sample.start_in (Sample.world_of true [Returns (PyInt 3)] [] [])
  = (Exc IndexError,
     [RegisterHook; Rpc (connect "w1");
      Rpc (validate_collection "w1"
             [("test_00000.py", "test_a", "0"); ("test_00000.py", "test_b", "0");
              ("test_00001.py", "test_c", "0")]);
      ThreadStart; EnterStartedContext; Rpc (get_test "w1");
      FlushRemainingScopes; StopEventSet; ThreadJoin; ExitStartedContext]).
Proof.
  refine (proj1 (reply_out_of_range_raises
                   Sample.waiting Sample.protocol_error Sample.finished Sample.terminate
                   Sample.interruptions Sample.worker
                   (Sample.world_of true [Returns (PyInt 3)] [] []) (PyInt 3) []
                   eq_refl eq_refl (sample_index_not_sentinel 3) _)).
  intros z E. injection E as <-. right. cbn. lia.
Defined.

(** X7 on the sample worker: the reply -1 runs the last collected test. *)
Lemma negative_reply_runs_test_from_the_end_sample :
  run_loop Sample.waiting Sample.protocol_error Sample.finished Sample.terminate
    Sample.worker [Returns (PyInt (-1)); Returns Sample.finished] false Sample.ready
  = (Ok tt,
     {| trace :=
          [Rpc (get_test "w1"); SetCurrentParallelTestIndex (PyInt (-1));
           RunTests Sample.t2;
           LogDebug "Client w1 finished test, sending results";
           Rpc (finished_test "w1"
                  {| result_test := Sample.t2; result_status := Success |});
           Rpc (get_test "w1");
           LogDebug "Got FINISHED_ALL_TESTS, Client w1 disconnecting"];
        finished_test_replies := [];
        run_tests_outcomes := [] |}).
Proof.
  etransitivity;
    [exact (negative_reply_runs_test_from_the_end
              Sample.waiting Sample.protocol_error Sample.finished Sample.terminate
              Sample.worker 1 Sample.t2 Success Sample.ok [] [] [Returns Sample.finished]
              Sample.ready ltac:(cbn; lia) eq_refl (sample_index_not_sentinel (-1))
              eq_refl eq_refl)
    |reflexivity].
Defined.

(** X9 on a warning that pickles and a transport that takes it. *)
Lemma picklable_warning_is_reported_sample :
  warning_added Sample.pickling Sample.transport_accepts Sample.worker
    Sample.a_warning Sample.idle
  = (Ok tt,
     {| trace := [Rpc (report_warning "w1" "pickled")];
        finished_test_replies := [];
        run_tests_outcomes := [] |}).
Proof.
  exact (picklable_warning_is_reported
           Sample.pickling Sample.transport_accepts Sample.worker
           Sample.a_warning "pickled" Sample.idle eq_refl eq_refl).
Defined.

(** X16 on a suite with an error, a success and a skip planned. *)
Lemma fix_all_fixes_every_test_but_skips_sample :
  map Suite.result
    (Suite.deref_all (Suite.fix_all SuiteSample.mixed)
       (Suite._all_tests (Suite.fix_all SuiteSample.mixed)))
  = ["success"; "success"; "skip"]%string.
Proof.
  destruct (SuiteFacts.fix_all_fixes_every_test_but_skips SuiteSample.mixed eq_refl)
    as (H & _).
  rewrite H. reflexivity.
Defined.

Lemma sample_uuids_distinct (i j : nat) :
  Suite.replace_dashes (SuiteSample.uuid1 i) = Suite.replace_dashes (SuiteSample.uuid1 j) ->
  i = j.
Proof.
  revert j. induction i as [|i IH]; intros [|j] H; cbn in H;
    try reflexivity; try discriminate.
  injection H as H. f_equal. now apply IH.
Qed.

(** X19 on a suite of four tests. *)
Lemma all_passed_session_verifies_sample :
  exists s,
    Suite.populate SuiteSample.uuid1 Suite.TestSuite_init 4 = inr s
    /\ Suite._verify_results s (map Suite.passed (Suite.tests_ s)) true = None.
Proof.
  exact (SuiteFacts.all_passed_session_verifies SuiteSample.uuid1 4 true
           sample_uuids_distinct).
Defined.

(** X20 on a session whose first test ended in an error. *)
Lemma error_makes_the_rest_skipped_sample :
  Forall (fun t' =>
            Suite.selected t' = true ->
            exists r',
              Suite.dict_get (Suite.uuid t')
                [("f_2"%string, SuiteSample.skip_result);
                 ("e_1"%string, SuiteSample.error_result)] = Some r'
              /\ Suite.is_started r' = false /\ Suite.is_skip r' = true)
    [SuiteSample.later].
Proof.
  exact (SuiteFacts.error_makes_the_rest_skipped SuiteSample.suite
           [SuiteSample.error_result; SuiteSample.skip_result] false
           [("f_2"%string, SuiteSample.skip_result);
            ("e_1"%string, SuiteSample.error_result)]
           [] SuiteSample.errored [SuiteSample.later] SuiteSample.error_result
           eq_refl eq_refl eq_refl eq_refl eq_refl (or_introl eq_refl)).
Defined.

(** X3 on the sample worker: the first test is interrupted, and the worker
    neither disconnects nor marks the session complete. *)
Lemma disconnect_at_most_once_sample :
  count is_disconnect
    (snd (Sample.start_in
            (Sample.world_of true [Returns (PyInt 0)] [] [inl KeyboardInterrupt]))) = 0
  /\ count is_mark_complete
       (snd (Sample.start_in
               (Sample.world_of true [Returns (PyInt 0)] [] [inl KeyboardInterrupt]))) = 0.
Proof.
  destruct (disconnect_at_most_once
              Sample.waiting Sample.protocol_error Sample.finished Sample.terminate
              Sample.interruptions Sample.worker
              (Sample.world_of true [Returns (PyInt 0)] [] [inl KeyboardInterrupt]))
    as (_ & _ & _ & H).
  exact (H KeyboardInterrupt
           {| trace :=
                [RegisterHook; Rpc (connect "w1");
                 Rpc (validate_collection "w1"
                        [("test_00000.py", "test_a", "0");
                         ("test_00000.py", "test_b", "0");
                         ("test_00001.py", "test_c", "0")]);
                 ThreadStart; EnterStartedContext;
                 Rpc (get_test "w1"); SetCurrentParallelTestIndex (PyInt 0);
                 RunTests Sample.t0];
              finished_test_replies := [];
              run_tests_outcomes := [] |}
           eq_refl eq_refl).
Defined.
